(** * Holdings reconciliation, history update and derived metrics

    A shallow embedding of the wealth dashboard's business logic:
    - [types.ts]: [AssetCategory], [Asset], [HistoryPoint], [AnalysisResponse];
    - [services/geminiService.ts]: the sanitising tail of
      [parseHoldingsScreenshot] and the result handling of
      [generateWealthAnalysis];
    - the [App] component: the derived metrics, [handleFileUpload] (merge by
      name and today's history point) and [handleRunAnalysis].

    JavaScript numbers are IEEE 754 binary64 values and are modelled by the
    primitive floats of the kernel, which are the same values with the same
    rounding.  Arrays are lists, read with [!!] and written with [<[i:=x]>].
    Objects with the keys of [Asset] are records of optional fields: a
    missing field is a property the object does not have. *)

From Stdlib Require Import Ascii String Floats.
From stdpp Require Import base option list strings pretty.

Local Open Scope string_scope.
Local Open Scope list_scope.

(** ** JavaScript values and operators used by the code *)

(** [x !== x] holds of NaN only. *)
Definition isNaN (x : float) : bool := negb (PrimFloat.eqb x x).

(** ToBoolean on a number: [0], [-0] and [NaN] are falsy. *)
Definition truthy_number (x : float) : bool :=
  negb (PrimFloat.eqb x 0%float || isNaN x).

(** ToBoolean on a string or [undefined]: [undefined] and [""] are falsy. *)
Definition truthy_string (v : option string) : bool :=
  match v with
  | Some s => negb (String.eqb s "")
  | None => false
  end.

(** [v || d] for a string-or-undefined [v] and a string [d]. *)
Definition or_string (v : option string) (d : string) : string :=
  match v with
  | Some s => if truthy_string v then s else d
  | None => d
  end.

(** [Number(v)] for a number-or-undefined [v]: [Number(undefined)] is NaN. *)
Definition Number (v : option float) : float :=
  match v with
  | Some x => x
  | None => nan
  end.

(** [x || d] on numbers. *)
Definition or_number (x d : float) : float :=
  if truthy_number x then x else d.

(** [v || d] for a number-or-undefined [v]. *)
Definition or_number_undef (v : option float) (d : float) : float :=
  match v with
  | Some x => or_number x d
  | None => d
  end.

(** [sum + v] where [v] may be [undefined]: ToNumber(undefined) is NaN. *)
Definition add_undef (sum : float) (v : option float) : float :=
  PrimFloat.add sum (Number v).

(** [s.split(sep)] for a one-character separator. *)
Fixpoint split (sep : ascii) (s : string) : list string :=
  match s with
  | EmptyString => [""]
  | String c r =>
      if Ascii.eqb c sep then "" :: split sep r
      else match split sep r with
           | h :: t => String c h :: t
           | [] => [String c ""]
           end
  end.

(** [s.startsWith(p)]. *)
Definition startsWith (s p : string) : bool := String.prefix p s.

(** [l.findIndex(p)]: the first index whose element satisfies [p];
    [None] stands for the result [-1]. *)
Definition findIndex {A} (p : A → bool) (l : list A) : option nat :=
  fst <$> list_find (λ x, p x = true) l.

(** An awaited promise either resolves with a value or rejects; a rejection
    is an exception at the [await]. *)
Inductive Outcome (A : Type) : Type :=
| Resolved (a : A)
| Rejected.

#[global] Arguments Resolved {A} a.
#[global] Arguments Rejected {A}.

(** ** types.ts *)

Inductive AssetCategory : Type :=
| STOCK | FUND | BOND | CRYPTO | CASH | OTHER.

(** The string each enumeration member stands for. *)
Definition category_value (c : AssetCategory) : string :=
  match c with
  | STOCK => "Stock"
  | FUND => "Fund"
  | BOND => "Bond"
  | CRYPTO => "Crypto"
  | CASH => "Cash"
  | OTHER => "Other"
  end.

(** [Object.values(AssetCategory)]. *)
Definition AssetCategory_values : list string :=
  category_value <$> [STOCK; FUND; BOND; CRYPTO; CASH; OTHER].

(** An object with (some of) the keys of [interface Asset].  [Partial<Asset>]
    is this type; an [Asset] is such an object with every key present, and
    the [as Asset] casts of the code are unchecked, so the holdings array
    holds these objects. *)
Record Asset : Type := mkAsset {
  a_id : option string;
  a_name : option string;
  a_category : option string;
  a_amount : option float;
  a_returnRate : option float;
  a_currency : option string;
  a_lastUpdated : option string
}.

(** The empty object [{}]. *)
Definition empty_object : Asset := mkAsset None None None None None None None.

(** Every key of [interface Asset] is present. *)
Definition complete (a : Asset) : Prop :=
  is_Some (a_id a) ∧ is_Some (a_name a) ∧ is_Some (a_category a) ∧
  is_Some (a_amount a) ∧ is_Some (a_returnRate a) ∧ is_Some (a_currency a) ∧
  is_Some (a_lastUpdated a).

(** One field of [{...a, ...b}]: the value of [b] where [b] has the key. *)
Definition override {A} (b a : option A) : option A :=
  match b with
  | Some _ => b
  | None => a
  end.

(** The object spread [{...a, ...b}]. *)
Definition spread (a b : Asset) : Asset :=
  {| a_id := override (a_id b) (a_id a);
     a_name := override (a_name b) (a_name a);
     a_category := override (a_category b) (a_category a);
     a_amount := override (a_amount b) (a_amount a);
     a_returnRate := override (a_returnRate b) (a_returnRate a);
     a_currency := override (a_currency b) (a_currency a);
     a_lastUpdated := override (a_lastUpdated b) (a_lastUpdated a) |}.

Record HistoryPoint : Type := mkHistoryPoint {
  h_date : string;
  h_totalNetWorth : float;
  h_totalReturnRate : float
}.

Record AnalysisResponse : Type := mkAnalysisResponse {
  assetAllocationAnalysis : string;
  investmentAdvice : string;
  adjustmentSuggestions : string
}.

(** ** The runtime around the code

    The values the platform hands to the code are not code of the repository;
    they are collected in a record the embedding is parameterised by. *)

(** A non-null element of the array the extraction service answers with, at
    the shape the request's [responseSchema] declares ([name], [category] and
    [currency] strings, [amount] and [returnRate] numbers); any property may
    be missing. *)
Record RawItem : Type := mkRawItem {
  raw_name : option string;
  raw_category : option string;
  raw_amount : option float;
  raw_returnRate : option float;
  raw_currency : option string
}.

(** What [JSON.parse] returns on the two kinds of answers the code expects,
    on the text [null], and on anything else.  In an array, [None] is a
    [null] element. *)
Inductive JSON : Type :=
| JArray (items : list (option RawItem))
| JAnalysis (r : AnalysisResponse)
| JNull
| JScalar.

Record Platform : Type := mkPlatform {
  (** [JSON.parse(text)]; [None] when it throws a SyntaxError. *)
  JSON_parse : string → option JSON;
  (** the string the k-th evaluation of [new Date().toISOString()] gives *)
  Date_toISOString : nat → string;
  (** the string the k-th call of [crypto.randomUUID()] gives *)
  crypto_randomUUID : nat → string;
  (** the k-th [ai.models.generateContent] request: it rejects, or resolves
      with a response whose [text] is a string or [undefined] *)
  ai_generateContent : nat → Outcome (option string)
}.

(** The effects of the code on its surroundings: how many times the clock and
    the identifier generator were consulted, how many requests went to the
    service, and the notices shown with [alert], oldest first. *)
Record World : Type := mkWorld {
  clockReads : nat;
  uuidDraws : nat;
  requests : nat;
  alerts : list string
}.

Section Runtime.

Context (pf : Platform).

(** [new Date().toISOString()]. *)
Definition now (w : World) : string * World :=
  (Date_toISOString pf (clockReads w),
   mkWorld (S (clockReads w)) (uuidDraws w) (requests w) (alerts w)).

(** [crypto.randomUUID()]. *)
Definition randomUUID (w : World) : string * World :=
  (crypto_randomUUID pf (uuidDraws w),
   mkWorld (clockReads w) (S (uuidDraws w)) (requests w) (alerts w)).

(** [await ai.models.generateContent(...)], reduced to [response.text]. *)
Definition generateContent (w : World) : Outcome (option string) * World :=
  (ai_generateContent pf (requests w),
   mkWorld (clockReads w) (uuidDraws w) (S (requests w)) (alerts w)).

(** [alert(msg)]. *)
Definition alert (msg : string) (w : World) : World :=
  mkWorld (clockReads w) (uuidDraws w) (requests w) (alerts w ++ [msg]).

End Runtime.

(** ** services/geminiService.ts *)

Section GeminiService.

Context (pf : Platform).

(** [Object.values(AssetCategory).includes(v)]. *)
Definition includes (l : list string) (v : option string) : bool :=
  match v with
  | Some s => existsb (String.eqb s) l
  | None => false
  end.

(** [includes(item.category) ? item.category : AssetCategory.OTHER]. *)
Definition sanitize_category (v : option string) : string :=
  match v with
  | Some s => if includes AssetCategory_values v then s else category_value OTHER
  | None => category_value OTHER
  end.

(** The object literal built for one item by the callback of [rawData.map];
    [t] is what [new Date().toISOString()] gave for this item. *)
Definition sanitize (t : string) (item : RawItem) : Asset :=
  {| a_id := None;
     a_name := Some (or_string (raw_name item) "未知资产");
     a_category := Some (sanitize_category (raw_category item));
     a_amount := Some (or_number (Number (raw_amount item)) 0%float);
     a_returnRate := Some (or_number (Number (raw_returnRate item)) 0%float);
     a_currency := Some (or_string (raw_currency item) "CNY");
     a_lastUpdated := Some t |}.

(** [rawData.map(item => ...)] on an array.  Reading [item.name] of a [null]
    element throws a TypeError: the result is then [None]. *)
Fixpoint map_sanitize (w : World) (rawData : list (option RawItem))
  : option (list Asset) * World :=
  match rawData with
  | [] => (Some [], w)
  | None :: _ => (None, w)
  | Some item :: rest =>
      let '(t, w1) := now pf w in
      let '(r, w2) := map_sanitize w1 rest in
      (cons (sanitize t item) <$> r, w2)
  end.

(** The part of [parseHoldingsScreenshot] after the [await]: from
    [response.text] to the returned list.  Everything thrown inside the
    [try] is caught and answered with [[]]. *)
Definition parse_response_text (text : option string) (w : World)
  : list Asset * World :=
  match text with
  | None => ([], w)
  | Some s =>
      if negb (truthy_string text) then ([], w)
      else match JSON_parse pf s with
           | None => ([], w)
           | Some (JArray rawData) =>
               let '(r, w1) := map_sanitize w rawData in
               (default [] r, w1)
           | Some _ => ([], w)
           end
  end.

(** [parseHoldingsScreenshot(base64Image)]: it rejects only when the request
    itself rejects. *)
Definition parseHoldingsScreenshot (base64Image : option string) (w : World)
  : Outcome (list Asset) * World :=
  let '(response, w1) := generateContent pf w in
  match response with
  | Rejected => (Rejected, w1)
  | Resolved text =>
      let '(l, w2) := parse_response_text text w1 in
      (Resolved l, w2)
  end.

(** [generateWealthAnalysis(assets)]: a missing text and a text that does not
    parse are both thrown to the caller.  The value of [JSON.parse] is
    returned under an unchecked cast. *)
Definition generateWealthAnalysis (assets : list Asset) (w : World)
  : Outcome JSON * World :=
  let '(response, w1) := generateContent pf w in
  match response with
  | Rejected => (Rejected, w1)
  | Resolved text =>
      match text with
      | None => (Rejected, w1)
      | Some s =>
          if negb (truthy_string text) then (Rejected, w1)
          else match JSON_parse pf s with
               | None => (Rejected, w1)
               | Some j => (Resolved j, w1)
               end
      end
  end.

(** A picked file, reduced to what reading it as a data URL gives. *)
Record File : Type := mkFile { readAsDataURL : Outcome string }.

(** [fileToGenerativePart(file)]: the part of the data URL after the first
    comma ([undefined] when there is none), or a rejection when the reader
    fails. *)
Definition fileToGenerativePart (file : File) : Outcome (option string) :=
  match readAsDataURL file with
  | Resolved base64String => Resolved (split "," base64String !! 1)
  | Rejected => Rejected
  end.

End GeminiService.

(** ** The App component *)

Record AppState : Type := mkAppState {
  assets : list Asset;
  history : list HistoryPoint;
  analysis : option JSON;
  isUploading : bool;
  isAnalyzing : bool
}.

Section App.

Context (pf : Platform).

(** *** Computed values *)

(** [assets.reduce((sum, a) => sum + a.amount, 0)]. *)
Definition totalNetWorth (assets : list Asset) : float :=
  fold_left (λ sum a, add_undef sum (a_amount a)) assets 0%float.

(** [assets.reduce((sum, a) => sum + (a.amount * (a.returnRate / 100)), 0)]. *)
Definition totalReturn (assets : list Asset) : float :=
  fold_left
    (λ sum a,
       PrimFloat.add sum
         (PrimFloat.mul (Number (a_amount a))
            (PrimFloat.div (Number (a_returnRate a)) 100%float)))
    assets 0%float.

(** [totalNetWorth > 0 ? (totalReturn / totalNetWorth) * 100 : 0]. *)
Definition totalReturnRate (assets : list Asset) : float :=
  if PrimFloat.ltb 0%float (totalNetWorth assets)
  then PrimFloat.mul (PrimFloat.div (totalReturn assets) (totalNetWorth assets)) 100%float
  else 0%float.

(** *** The merge of [handleFileUpload] *)

(** The key read by [a.name === extracted.name]. *)
Definition same_name (extracted a : Asset) : bool :=
  bool_decide (a_name a = a_name extracted).

(** The object [{ lastUpdated: t }] spread last into both literals. *)
Definition stamp (t : string) : Asset :=
  mkAsset None None None None None None (Some t).

(** The object [{ id: u, lastUpdated: t }]. *)
Definition identity_stamp (u t : string) : Asset :=
  mkAsset (Some u) None None None None None (Some t).

(** The callback of [extractedAssets.forEach], on the array [newAssets]. *)
Definition merge_one (st : list Asset * World) (extracted : Asset)
  : list Asset * World :=
  let '(newAssets, w) := st in
  if negb (truthy_string (a_name extracted)) then (newAssets, w)
  else match findIndex (same_name extracted) newAssets with
       | Some index =>
           let '(t, w1) := now pf w in
           (<[index := spread (spread (default empty_object (newAssets !! index))
                                      extracted) (stamp t)]> newAssets,
            w1)
       | None =>
           let '(u, w1) := randomUUID pf w in
           let '(t, w2) := now pf w1 in
           (newAssets ++ [spread extracted (identity_stamp u t)], w2)
       end.

(** The updater given to [setAssets]. *)
Definition merge_assets (prev : list Asset) (extractedAssets : list Asset)
  (w : World) : list Asset * World :=
  fold_left merge_one extractedAssets (prev, w).

(** *** Today's history point *)

(** [extractedAssets.reduce((s, a) => s + (a.amount || 0), 0)]. *)
Definition extracted_sum (extractedAssets : list Asset) : float :=
  fold_left (λ s a, PrimFloat.add s (or_number_undef (a_amount a) 0%float))
    extractedAssets 0%float.

(** [new Date().toISOString().split('T')[0]]. *)
Definition today_of (iso : string) : string :=
  default "" (split "T" iso !! 0).

(** The object literal [newPoint] of the updater, for the day [todayStr]. *)
Definition newPoint (netWorth returnRate : float)
  (extractedAssets : list Asset) (todayStr : string) : HistoryPoint :=
  {| h_date := todayStr;
     h_totalNetWorth := PrimFloat.add netWorth (extracted_sum extractedAssets);
     h_totalReturnRate := returnRate |}.

(** The updater given to [setHistory]; [netWorth] and [returnRate] are the
    values of [totalNetWorth] and [totalReturnRate] of the render the handler
    was created in. *)
Definition update_history (netWorth returnRate : float)
  (extractedAssets : list Asset) (prev : list HistoryPoint) (w : World)
  : list HistoryPoint * World :=
  let '(iso, w1) := now pf w in
  let todayStr := today_of iso in
  let existingTodayIndex := findIndex (λ h, startsWith (h_date h) todayStr) prev in
  match existingTodayIndex with
  | Some i =>
      (<[i := newPoint netWorth returnRate extractedAssets todayStr]> prev, w1)
  | None =>
      (prev ++ [newPoint netWorth returnRate extractedAssets todayStr], w1)
  end.

(** *** Handlers *)

Definition upload_ok_notice : string := "截图解析成功，您的持仓已更新。".
Definition upload_failed_notice : string := "截图解析失败，请确保图片清晰并重试。".
Definition no_assets_notice : string := "请先添加资产后再运行分析。".
Definition analysis_failed_notice : string := "AI 分析生成失败，请稍后重试。".

Definition set_isUploading (b : bool) (s : AppState) : AppState :=
  mkAppState (assets s) (history s) (analysis s) b (isAnalyzing s).

Definition set_isAnalyzing (b : bool) (s : AppState) : AppState :=
  mkAppState (assets s) (history s) (analysis s) (isUploading s) b.

(** [setAnalysis(result)].  The state is declared
    [useState<AnalysisResponse | null>(null)]: the value [null] is the state
    without an analysis, so storing [null] leaves [None]; any other value is
    stored as it is, the cast of [generateWealthAnalysis] checking nothing. *)
Definition setAnalysis (result : JSON) (s : AppState) : AppState :=
  mkAppState (assets s) (history s)
    (match result with
     | JNull => None
     | _ => Some result
     end)
    (isUploading s) (isAnalyzing s).

(** [handleFileUpload]; [file] is [event.target.files?.[0]].  The state is
    the one of the render the handler was created in, and no other update is
    pending when its two updaters run. *)
Definition handleFileUpload (file : option File) (s : AppState) (w : World)
  : AppState * World :=
  match file with
  | None => (s, w)
  | Some f =>
      let '(s', w') :=
        match fileToGenerativePart f with
        | Rejected => (s, alert upload_failed_notice w)
        | Resolved base64 =>
            match parseHoldingsScreenshot pf base64 w with
            | (Rejected, w1) => (s, alert upload_failed_notice w1)
            | (Resolved extractedAssets, w1) =>
                let '(newAssets, w2) := merge_assets (assets s) extractedAssets w1 in
                let '(newHistory, w3) :=
                  update_history (totalNetWorth (assets s)) (totalReturnRate (assets s))
                    extractedAssets (history s) w2 in
                (mkAppState newAssets newHistory (analysis s)
                   (isUploading s) (isAnalyzing s),
                 alert upload_ok_notice w3)
            end
        end in
      (set_isUploading false s', w')
  end.

(** [handleRunAnalysis]. *)
Definition handleRunAnalysis (s : AppState) (w : World) : AppState * World :=
  match assets s with
  | [] => (s, alert no_assets_notice w)
  | _ :: _ =>
      let '(s', w') :=
        match generateWealthAnalysis pf (assets s) w with
        | (Resolved result, w1) => (setAnalysis result s, w1)
        | (Rejected, w1) => (s, alert analysis_failed_notice w1)
        end in
      (set_isAnalyzing false s', w')
  end.

End App.

(** ** Vocabulary of the specification *)

(** The merged object [a'] takes the field read by [f] from the extracted
    record [e] where [e] has it, and keeps the one of the prior asset [a]
    where [e] does not. *)
Definition inherits {X} (f : Asset → option X) (e a a' : Asset) : Prop :=
  match f e with
  | Some v => f a' = Some v
  | None => f a' = f a
  end.

(** A name that is present and not the empty string. *)
Definition nonempty_name (e : Asset) : Prop :=
  ∃ n, a_name e = Some n ∧ n ≠ "".

(** The [id] of the asset is what one of the first [n] calls of
    [crypto.randomUUID()] gave. *)
Definition issued_before (pf : Platform) (n : nat) (a : Asset) : Prop :=
  ∃ k, (k < n)%nat ∧ a_id a = Some (crypto_randomUUID pf k).


(** No point of the history carries a date finer than the day [d]: a date
    that starts with [d] is [d]. *)
Definition day_granular (d : string) (H : list HistoryPoint) : Prop :=
  Forall (λ h, startsWith (h_date h) d = true → h_date h = d) H.

(** At most one point per calendar day. *)
Definition one_point_per_day (H : list HistoryPoint) : Prop :=
  NoDup (h_date <$> H).

(** A response text the extraction client answers with the empty list:
    missing or empty, not parsable, parsed to something that is not an array,
    or an array with a [null] element. *)
Definition unusable_text (pf : Platform) (text : option string) : Prop :=
  truthy_string text = false ∨
  ∃ s, text = Some s ∧
    (JSON_parse pf s = None ∨
     (∃ r, JSON_parse pf s = Some (JAnalysis r)) ∨
     JSON_parse pf s = Some JNull ∨
     JSON_parse pf s = Some JScalar ∨
     ∃ items, JSON_parse pf s = Some (JArray items) ∧ None ∈ items).

(** The record [e], merged into the list [prev], updates an asset whose
    amount differs from the amount [e] carries. *)
Definition updates_with_differing_amount (prev : list Asset) (e : Asset) : Prop :=
  ∃ i a x y,
    truthy_string (a_name e) = true ∧
    findIndex (same_name e) prev = Some i ∧ prev !! i = Some a ∧
    a_amount a = Some x ∧ a_amount e = Some y ∧ PrimFloat.eqb x y = false.

(** A record as the extraction client hands it on: a non-empty name, a
    category of the enumeration, and an amount and a return rate that are
    numbers other than NaN. *)
Definition sanitized (e : Asset) : Prop :=
  nonempty_name e ∧
  (∃ c, a_category e = Some c ∧ c ∈ AssetCategory_values) ∧
  (∃ x, a_amount e = Some x ∧ isNaN x = false) ∧
  (∃ r, a_returnRate e = Some r ∧ isNaN r = false).

(** ** Scenarios

    A platform for concrete runs: [JSON.parse] answers the array [items], the
    clock stands at one instant of 1 May 2024, the k-th identifier is
    "uuid-k", and the service answers every request with a text. *)
Definition scenario_platform (items : list (option RawItem)) : Platform :=
  {| JSON_parse := λ _, Some (JArray items);
     Date_toISOString := λ _, "2024-05-01T10:00:00.000Z";
     crypto_randomUUID := λ k, "uuid-" +:+ pretty k;
     ai_generateContent := λ _, Resolved (Some "[...]") |}.

(** Nothing read, drawn, requested or shown yet. *)
Definition fresh_world : World := mkWorld 0 0 0 [].

(** The asset "Fund A" with the amount [x] and a return rate of 5. *)
Definition fund_A (x : float) : Asset :=
  mkAsset (Some "a1") (Some "Fund A") (Some "Fund") (Some x) (Some 5%float)
    (Some "CNY") (Some "2024-01-01T00:00:00.000Z").

(** The raw item the service extracts for "Fund A" at the amount [y]. *)
Definition raw_fund_A (y : float) : RawItem :=
  mkRawItem (Some "Fund A") (Some "Fund") (Some y) (Some 5%float) (Some "CNY").

(** A picked file that reads without error. *)
Definition readable_file : File := mkFile (Resolved "data:image/png;base64,AAAA").

(** The state that holds "Fund A" at [x] and no history. *)
Definition holding_fund_A (x : float) : AppState :=
  mkAppState [fund_A x] [] None false false.

(** ** components/Charts.tsx and the rows of the holdings table *)

(** The palette [COLORS]. *)
Definition COLORS : list string :=
  ["#D4A532"; "#AA8428"; "#80631E"; "#E6CB7D"; "#554214"; "#F9F1D8"].

(** The object literal [CategoryMap] of the charts, by its own entries. *)
Definition CategoryMap : list (string * string) :=
  [("Stock", "股票"); ("Fund", "基金"); ("Bond", "债券");
   ("Crypto", "数字货币"); ("Cash", "现金"); ("Other", "其他")].

(** The object literal [CategoryDisplayMap] of the App component, whose keys
    are the members of [AssetCategory]. *)
Definition CategoryDisplayMap : list (string * string) :=
  [(category_value STOCK, "股票"); (category_value FUND, "基金");
   (category_value BOND, "债券"); (category_value CRYPTO, "数字货币");
   (category_value CASH, "现金"); (category_value OTHER, "其他")].

(** The object literal [categoryMap] inside [generateWealthAnalysis]. *)
Definition categoryMap : list (string * string) :=
  [("Stock", "股票"); ("Fund", "基金"); ("Bond", "债券");
   ("Crypto", "数字货币"); ("Cash", "现金"); ("Other", "其他")].

(** [m[key]] on the own entries of an object literal.  A key that names a
    member every object inherits ("constructor", "toString", ...) reads that
    member in JavaScript; such keys are not categories of the enumeration,
    and the facts below are stated for categories of the enumeration, which
    is what the type of [Asset.category] admits. *)
Fixpoint own_property (m : list (string * string)) (key : string)
  : option string :=
  match m with
  | [] => None
  | (k, v) :: rest => if String.eqb k key then Some v else own_property rest key
  end.

(** [m[category] || category], where [category] may be [undefined]. *)
Definition display_name (m : list (string * string)) (category : option string)
  : option string :=
  match category with
  | Some c =>
      match own_property m c with
      | Some label => Some (or_string (Some label) c)
      | None => Some c
      end
  | None => None
  end.

(** An element [{ name, value }] of the data of the pie chart. *)
Record Slice : Type := mkSlice {
  s_name : option string;
  s_value : option float
}.

(** The callback of [assets.reduce] in [AllocationChart]: the slice found by
    [acc.find] is updated where it stands, a new slice is pushed at the end. *)
Definition allocation_step (acc : list Slice) (asset : Asset) : list Slice :=
  let categoryName := display_name CategoryMap (a_category asset) in
  match list_find (λ i, s_name i = categoryName) acc with
  | Some (k, existing) =>
      <[k := mkSlice (s_name existing)
               (Some (PrimFloat.add (Number (s_value existing))
                        (Number (a_amount asset))))]> acc
  | None => acc ++ [mkSlice categoryName (a_amount asset)]
  end.

(** [assets.reduce(..., [])]: the data of the pie chart. *)
Definition allocation_data (assets : list Asset) : list Slice :=
  fold_left allocation_step assets [].

(** [COLORS[index % COLORS.length]] for the cell of each slice, in order. *)
Definition cell_fills (data : list Slice) : list (option string) :=
  imap (λ index _, COLORS !! (index mod length COLORS)) data.

(** The class of the return-rate cell of a row:
    [asset.returnRate >= 0 ? 'text-green-400' : 'text-red-400']. *)
Definition rate_class (asset : Asset) : string :=
  if PrimFloat.leb 0%float (Number (a_returnRate asset))
  then "text-green-400" else "text-red-400".

(** The sign shown before the rate: [asset.returnRate > 0 ? '+' : '']. *)
Definition rate_sign (asset : Asset) : string :=
  if PrimFloat.ltb 0%float (Number (a_returnRate asset)) then "+" else "".

(** ** Further vocabulary *)

(** The raw item that carries the fields of a record again. *)
Definition raw_of (e : Asset) : RawItem :=
  mkRawItem (a_name e) (a_category e) (a_amount e) (a_returnRate e)
    (a_currency e).

(** A record with every key the object literal of the extraction client
    writes: all keys of [Asset] but [id], and a non-empty name. *)
Definition client_record (e : Asset) : Prop :=
  a_id e = None ∧ nonempty_name e ∧ is_Some (a_category e) ∧
  is_Some (a_amount e) ∧ is_Some (a_returnRate e) ∧ is_Some (a_currency e) ∧
  is_Some (a_lastUpdated e).

(** The category is present and belongs to the enumeration. *)
Definition enumerated_category (a : Asset) : Prop :=
  ∃ c, a_category a = Some c ∧ c ∈ AssetCategory_values.

(** The running value of a slice: the amount it was pushed with, then each
    further amount added with [+=], in order. *)
Definition running_sum (first : option float) (rest : list (option float))
  : option float :=
  fold_left (λ v x, Some (PrimFloat.add (Number v) (Number x))) rest first.

(** The amounts of the assets whose slice is named [n], in list order. *)
Definition amounts_named (n : option string) (assets : list Asset)
  : list (option float) :=
  a_amount <$> filter (λ a, display_name CategoryMap (a_category a) = n) assets.

(** ** Facts about the operators *)

Lemma findIndex_Some {A} (p : A → bool) (l : list A) (i : nat) :
  findIndex p l = Some i ↔
  ∃ x, l !! i = Some x ∧ p x = true ∧
       ∀ j y, l !! j = Some y → j < i → p y ≠ true.
Proof.
  unfold findIndex. split.
  - intros [[i' x] [Hf Hi]]%fmap_Some. simpl in Hi. subst i'.
    apply list_find_Some in Hf. exists x. exact Hf.
  - intros (x & Hx & Hp & Hleast). apply fmap_Some. exists (i, x).
    split; [|reflexivity]. apply list_find_Some. auto.
Qed.

Lemma findIndex_None {A} (p : A → bool) (l : list A) :
  findIndex p l = None ↔ Forall (λ x, p x ≠ true) l.
Proof.
  unfold findIndex. rewrite fmap_None. apply list_find_None.
Qed.

Lemma truthy_string_Some (n : string) :
  truthy_string (Some n) = true ↔ n ≠ "".
Proof.
  simpl. rewrite negb_true_iff. apply String.eqb_neq.
Qed.

Lemma truthy_string_true (v : option string) :
  truthy_string v = true ↔ ∃ n, v = Some n ∧ n ≠ "".
Proof.
  destruct v as [n|].
  - rewrite truthy_string_Some. split.
    + intros Hn. exists n. by split.
    + by intros (m & [= <-] & Hm).
  - simpl. split; [done|]. by intros (m & Hm & _).
Qed.

Lemma truthy_string_false (v : option string) :
  truthy_string v = false ↔ v = None ∨ v = Some "".
Proof.
  destruct v as [n|]; simpl.
  - rewrite negb_false_iff, String.eqb_eq. split.
    + intros ->. by right.
    + by intros [Hn|[= ->]].
  - split; [by left|done].
Qed.

Lemma same_name_true (e a : Asset) :
  same_name e a = true ↔ a_name a = a_name e.
Proof. unfold same_name. apply bool_decide_eq_true. Qed.

(** ** The merge, one record at a time *)

Section MergeOne.

Context (pf : Platform).

Lemma merge_one_skip (prev : list Asset) (w : World) (e : Asset) :
  truthy_string (a_name e) = false → merge_one pf (prev, w) e = (prev, w).
Proof. intros H. unfold merge_one. rewrite H. reflexivity. Qed.

Lemma merge_one_update (prev : list Asset) (w : World) (e a : Asset) (i : nat) :
  truthy_string (a_name e) = true →
  findIndex (same_name e) prev = Some i →
  prev !! i = Some a →
  merge_one pf (prev, w) e =
    (<[i := spread (spread a e) (stamp (Date_toISOString pf (clockReads w)))]> prev,
     (now pf w).2).
Proof.
  intros Ht Hf Ha. unfold merge_one. rewrite Ht, Hf. simpl. rewrite Ha.
  reflexivity.
Qed.

Lemma merge_one_insert (prev : list Asset) (w : World) (e : Asset) :
  truthy_string (a_name e) = true →
  findIndex (same_name e) prev = None →
  merge_one pf (prev, w) e =
    (prev ++ [spread e (identity_stamp (crypto_randomUUID pf (uuidDraws w))
                          (Date_toISOString pf (clockReads w)))],
     (now pf (randomUUID pf w).2).2).
Proof.
  intros Ht Hf. unfold merge_one. rewrite Ht, Hf. reflexivity.
Qed.

End MergeOne.

(** ** Reconciliation of extracted records into the holdings *)

(** C6. An extracted record whose name is missing or empty is skipped by the
    merge: the asset list (and the world: clock, identifiers, notices) is
    returned as it was, and a batch gives the same result with or without
    such a record.  The merge is a total function, so nothing is thrown. *)
Theorem empty_name_record_is_skipped (pf : Platform)
  (prev : list Asset) (w : World) (e : Asset) (before after : list Asset) :
  a_name e = None ∨ a_name e = Some "" →
  merge_one pf (prev, w) e = (prev, w) ∧
  merge_assets pf prev (before ++ e :: after) w =
    merge_assets pf prev (before ++ after) w.
Proof.
  intros He%truthy_string_false. split.
  - by apply merge_one_skip.
  - unfold merge_assets. rewrite !fold_left_app. simpl.
    destruct (fold_left (merge_one pf) before (prev, w)) as [l w'].
    by rewrite merge_one_skip.
Qed.

Lemma empty_name_record_is_skipped_witness :
  let pf := scenario_platform [] in
  let prev := [fund_A 100%float] in
  let e := mkAsset None (Some "") None (Some 7%float) None None None in
  merge_one pf (prev, fresh_world) e = (prev, fresh_world) ∧
  merge_assets pf prev ([] ++ e :: []) fresh_world =
    merge_assets pf prev ([] ++ []) fresh_world.
Proof.
  intros pf prev e.
  apply (empty_name_record_is_skipped pf prev fresh_world e [] []).
  right. reflexivity.
Defined.

Lemma inherits_spread {X} (f : Asset → option X) (e a a' : Asset) :
  f a' = override (f e) (f a) → inherits f e a a'.
Proof. unfold inherits, override. by destruct (f e). Qed.

(** The update branch, for a record the merge does not skip: the first asset
    that carries the name of the record is rewritten at its position. *)
Lemma merge_one_first_match (pf : Platform) (prev : list Asset) (w : World)
  (e : Asset) (n : string) :
  a_name e = Some n → n ≠ "" →
  (∃ a, a ∈ prev ∧ a_name a = Some n) →
  ∃ i a,
    prev !! i = Some a ∧ a_name a = Some n ∧
    (∀ j b, j < i → prev !! j = Some b → a_name b ≠ Some n) ∧
    (merge_one pf (prev, w) e).1 =
      <[i := spread (spread a e) (stamp (Date_toISOString pf (clockReads w)))]> prev.
Proof.
  intros Hn Hne (a0 & Hin & Ha0).
  assert (Ht : truthy_string (a_name e) = true).
  { rewrite Hn. by apply truthy_string_Some. }
  destruct (findIndex (same_name e) prev) as [i|] eqn:Hf.
  - pose proof Hf as (a & Ha & Hp & Hleast)%findIndex_Some.
    apply same_name_true in Hp. rewrite Hn in Hp.
    exists i, a. rewrite (merge_one_update pf prev w e a i Ht Hf Ha).
    split_and!; try done.
    intros j b Hj Hb Hnb. apply (Hleast j b Hb Hj).
    apply same_name_true. by rewrite Hn.
  - apply findIndex_None in Hf. rewrite Forall_forall in Hf.
    exfalso. apply (Hf a0 Hin). apply same_name_true. by rewrite Hn.
Qed.

(** The assets of the holdings have non-empty names: the merge keeps it so,
    whatever the records are. *)
Lemma merge_one_names_nonempty (pf : Platform) (prev : list Asset) (w : World)
  (e : Asset) :
  Forall nonempty_name prev →
  Forall nonempty_name (merge_one pf (prev, w) e).1.
Proof.
  intros Hall.
  destruct (truthy_string (a_name e)) eqn:Ht.
  - pose proof Ht as (n & Hn & Hne)%truthy_string_true.
    destruct (findIndex (same_name e) prev) as [i|] eqn:Hf.
    + pose proof Hf as (a & Ha & _)%findIndex_Some.
      rewrite (merge_one_update pf prev w e a i Ht Hf Ha). simpl.
      apply Forall_insert; [done|]. exists n. simpl. by rewrite Hn.
    + rewrite (merge_one_insert pf prev w e Ht Hf). simpl.
      apply Forall_app. split; [done|]. apply Forall_singleton.
      exists n. simpl. by rewrite Hn.
  - by rewrite (merge_one_skip pf prev w e Ht).
Qed.

Lemma merge_assets_names_nonempty (pf : Platform) (ext prev : list Asset)
  (w : World) :
  Forall nonempty_name prev →
  Forall nonempty_name (merge_assets pf prev ext w).1.
Proof.
  unfold merge_assets. revert prev w.
  induction ext as [|e ext IH]; intros prev w Hall; [done|].
  cbn [fold_left].
  pose proof (merge_one_names_nonempty pf prev w e Hall) as H1.
  destruct (merge_one pf (prev, w) e) as [l w1]. by apply IH.
Qed.

(** C1. Holdings whose assets have non-empty names (the empty list has the
    property and the merge keeps it), and an extracted record [e] whose name
    is the name of some asset.  The merge rewrites the first asset with that
    name, at its position, and nothing else.  The rewritten asset takes
    every field [e] has from [e] and keeps every field [e] lacks; it keeps
    its [id], as [e] carries none (no record of the extraction client
    does); its [lastUpdated] is the time read from the clock. *)
Theorem matching_record_updates_first_match (pf : Platform)
  (prev : list Asset) (w : World) (e : Asset) :
  Forall nonempty_name prev →
  (∃ a, a ∈ prev ∧ a_name a = a_name e) →
  ∃ i a a',
    prev !! i = Some a ∧ a_name a = a_name e ∧
    (∀ j b, j < i → prev !! j = Some b → a_name b ≠ a_name e) ∧
    (merge_one pf (prev, w) e).1 = <[i := a']> prev ∧
    length (merge_one pf (prev, w) e).1 = length prev ∧
    (a_id e = None → a_id a' = a_id a) ∧
    inherits a_id e a a' ∧
    inherits a_name e a a' ∧
    inherits a_category e a a' ∧
    inherits a_amount e a a' ∧
    inherits a_returnRate e a a' ∧
    inherits a_currency e a a' ∧
    a_lastUpdated a' = Some (Date_toISOString pf (clockReads w)).
Proof.
  intros Hinv (a0 & Hin & Ha0).
  rewrite Forall_forall in Hinv.
  destruct (Hinv a0 Hin) as (n & Hn0 & Hne).
  assert (Hn : a_name e = Some n) by congruence.
  destruct (merge_one_first_match pf prev w e n Hn Hne) as (i & a & Ha & Han & Hfirst & Hres).
  { exists a0. by split. }
  exists i, a, (spread (spread a e) (stamp (Date_toISOString pf (clockReads w)))).
  rewrite Hres, Hn. split_and!; try done.
  - apply length_insert.
  - intros Hid. simpl. unfold override. by rewrite Hid.
  - apply inherits_spread. simpl. unfold override. by destruct (a_id e).
  - apply inherits_spread. simpl. unfold override. by destruct (a_name e).
  - apply inherits_spread. simpl. unfold override. by destruct (a_category e).
  - apply inherits_spread. simpl. unfold override. by destruct (a_amount e).
  - apply inherits_spread. simpl. unfold override. by destruct (a_returnRate e).
  - apply inherits_spread. simpl. unfold override. by destruct (a_currency e).
Qed.

Lemma matching_record_updates_first_match_witness :
  let pf := scenario_platform [] in
  let prev := [fund_A 10000%float] in
  let e := mkAsset None (Some "Fund A") None (Some 12000%float) None None None in
  ∃ i a a',
    prev !! i = Some a ∧ a_name a = a_name e ∧
    (∀ j b, j < i → prev !! j = Some b → a_name b ≠ a_name e) ∧
    (merge_one pf (prev, fresh_world) e).1 = <[i := a']> prev ∧
    length (merge_one pf (prev, fresh_world) e).1 = length prev ∧
    (a_id e = None → a_id a' = a_id a) ∧
    inherits a_id e a a' ∧
    inherits a_name e a a' ∧
    inherits a_category e a a' ∧
    inherits a_amount e a a' ∧
    inherits a_returnRate e a a' ∧
    inherits a_currency e a a' ∧
    a_lastUpdated a' = Some "2024-05-01T10:00:00.000Z".
Proof.
  intros pf prev e.
  apply (matching_record_updates_first_match pf prev fresh_world e).
  - apply Forall_singleton. exists "Fund A". split; [reflexivity|discriminate].
  - exists (fund_A 10000%float). split; [apply list_elem_of_here | reflexivity].
Defined.

(** The scenario of the specification: Fund A at 10000 with a return of 5,
    updated by a record that only carries the amount 12000. *)
Example fund_A_scenario :
  (merge_one (scenario_platform []) ([fund_A 10000%float], fresh_world)
     (mkAsset None (Some "Fund A") None (Some 12000%float) None None None)).1 =
  [mkAsset (Some "a1") (Some "Fund A") (Some "Fund")
     (Some 12000%float) (Some 5%float) (Some "CNY")
     (Some "2024-05-01T10:00:00.000Z")].
Proof. reflexivity. Qed.

(** What the update does to an [id] the record carries: the spread of the
    record comes after the spread of the asset, and only [lastUpdated] is
    written after it. *)
Example record_with_id_replaces_id :
  a_id <$> (merge_one (scenario_platform []) ([fund_A 10000%float], fresh_world)
              (mkAsset (Some "zz") (Some "Fund A") None None None None None)).1 =
  [Some "zz"].
Proof. reflexivity. Qed.

Lemma includes_elem_of (l : list string) (c : string) :
  includes l (Some c) = true ↔ c ∈ l.
Proof.
  simpl. rewrite existsb_exists. split.
  - intros (x & Hx & ->%String.eqb_eq). by apply list_elem_of_In.
  - intros Hc. exists c. split; [by apply list_elem_of_In | apply String.eqb_refl].
Qed.

Lemma sanitize_category_known (c : string) :
  c ∈ AssetCategory_values → sanitize_category (Some c) = c.
Proof.
  intros Hc%includes_elem_of. unfold sanitize_category. by rewrite Hc.
Qed.

Lemma sanitize_category_unknown (v : option string) :
  (∀ c, v = Some c → c ∉ AssetCategory_values) →
  sanitize_category v = "Other".
Proof.
  intros Hv. destruct v as [c|]; [|reflexivity].
  unfold sanitize_category.
  destruct (includes AssetCategory_values (Some c)) eqn:Hi; [|reflexivity].
  apply includes_elem_of in Hi. by destruct (Hv c).
Qed.

Lemma sanitize_name_truthy (t : string) (item : RawItem) :
  truthy_string (a_name (sanitize t item)) = true.
Proof.
  simpl. unfold or_string.
  destruct (raw_name item) as [s|]; [|reflexivity].
  destruct (truthy_string (Some s)) eqn:Hs; [|reflexivity].
  simpl in Hs. by rewrite Hs.
Qed.

(** The assets present before a step keep their positions, names and, for a
    record without an [id], identifiers: an update writes in place and an
    insertion goes to the end. *)
Lemma merge_one_keeps_positions (pf : Platform) (k : nat) (l : list Asset)
  (w : World) (e : Asset) :
  (k ≤ length l)%nat →
  (k ≤ length (merge_one pf (l, w) e).1)%nat ∧
  a_name <$> take k (merge_one pf (l, w) e).1 = a_name <$> take k l ∧
  (a_id e = None →
   a_id <$> take k (merge_one pf (l, w) e).1 = a_id <$> take k l).
Proof.
  intros Hk.
  destruct (truthy_string (a_name e)) eqn:Ht.
  - destruct (findIndex (same_name e) l) as [i|] eqn:Hf.
    + pose proof Hf as (a & Ha & Hp%same_name_true & _)%findIndex_Some.
      rewrite (merge_one_update pf l w e a i Ht Hf Ha). simpl.
      split_and!; [by rewrite length_insert| |].
      * rewrite !fmap_take, list_fmap_insert. f_equal.
        apply list_insert_id. rewrite list_lookup_fmap, Ha. simpl.
        unfold override. rewrite Hp. by destruct (a_name e).
      * intros Hid. rewrite !fmap_take, list_fmap_insert. f_equal.
        apply list_insert_id. rewrite list_lookup_fmap, Ha. simpl.
        unfold override. by rewrite Hid.
    + rewrite (merge_one_insert pf l w e Ht Hf). simpl.
      split_and!; [rewrite length_app; lia|by rewrite take_app_le..].
  - by rewrite (merge_one_skip pf l w e Ht).
Qed.

Lemma merge_assets_keeps_prefix (pf : Platform) (ext prev : list Asset)
  (w : World) (k : nat) :
  (k ≤ length prev)%nat →
  a_name <$> take k (merge_assets pf prev ext w).1 = a_name <$> take k prev ∧
  (Forall (λ e, a_id e = None) ext →
   a_id <$> take k (merge_assets pf prev ext w).1 = a_id <$> take k prev).
Proof.
  unfold merge_assets. revert prev w.
  induction ext as [|e ext IH]; intros prev w Hk; [done|].
  cbn [fold_left].
  destruct (merge_one_keeps_positions pf k prev w e Hk) as (Hk' & Hn & Hi).
  destruct (merge_one pf (prev, w) e) as [l w1]. simpl in *.
  destruct (IH l w1 Hk') as [IHn IHi]. split.
  - by rewrite IHn.
  - intros [He Hext]%Forall_cons. rewrite IHi by done. by apply Hi.
Qed.

Lemma merge_assets_keeps_positions (pf : Platform) (ext prev : list Asset)
  (w : World) :
  a_name <$> take (length prev) (merge_assets pf prev ext w).1 = a_name <$> prev ∧
  (Forall (λ e, a_id e = None) ext →
   a_id <$> take (length prev) (merge_assets pf prev ext w).1 = a_id <$> prev).
Proof.
  destruct (merge_assets_keeps_prefix pf ext prev w (length prev)) as [Hn Hi];
    [done|].
  rewrite firstn_all in Hn, Hi. by split.
Qed.

(** C2. A record of the extraction client (the sanitised form of a raw item)
    whose name is the name of no asset of the list: the merge appends one
    asset after the assets of the list, which stay as they were and in their
    order.  Its [id] is what the identifier generator gives at a draw not
    used before, and is the [id] of no other asset when the generator gives
    a string not in use; with a generator that never gives a string twice
    that is so whenever the identifiers of the list came from earlier draws,
    and then the identifiers of the new list came from draws made by now.
    The asset carries what was extracted: the raw name
    when there is one that is not empty, and the placeholder otherwise; the
    raw category when that belongs to the enumeration, and "Other" when it
    does not; the raw amount and the raw return rate when they are numbers
    other than zero and NaN, and 0 when they are absent, zero or NaN; the raw
    currency when there is one that is not empty, and "CNY" otherwise.
    [lastUpdated] is the time the merge reads from the clock.  Over a whole
    batch, the assets of the list keep their positions. *)
Theorem unmatched_record_is_appended (pf : Platform)
  (prev : list Asset) (w : World) (t : string) (item : RawItem) :
  (∀ a, a ∈ prev → a_name a ≠ a_name (sanitize t item)) →
  (∃ new,
     (merge_one pf (prev, w) (sanitize t item)).1 = prev ++ [new] ∧
     a_id new = Some (crypto_randomUUID pf (uuidDraws w)) ∧
     uuidDraws (merge_one pf (prev, w) (sanitize t item)).2 = S (uuidDraws w) ∧
     (NoDup (a_id <$> prev) →
      Some (crypto_randomUUID pf (uuidDraws w)) ∉ (a_id <$> prev) →
      NoDup (a_id <$> prev ++ [new])) ∧
     ((∀ j k, crypto_randomUUID pf j = crypto_randomUUID pf k → j = k) →
      Forall (issued_before pf (uuidDraws w)) prev →
      (a_id new ∉ (a_id <$> prev)) ∧
      Forall (issued_before pf (S (uuidDraws w))) (prev ++ [new])) ∧
     a_name new = a_name (sanitize t item) ∧
     (∀ n, raw_name item = Some n → n ≠ "" → a_name new = Some n) ∧
     (raw_name item = None ∨ raw_name item = Some "" →
      a_name new = Some "未知资产") ∧
     (∀ c, raw_category item = Some c → c ∈ AssetCategory_values →
           a_category new = Some c) ∧
     ((∀ c, raw_category item = Some c → c ∉ AssetCategory_values) →
      a_category new = Some "Other") ∧
     (∀ x, raw_amount item = Some x →
           isNaN x = false → PrimFloat.eqb x 0%float = false →
           a_amount new = Some x) ∧
     (∀ x, raw_amount item = Some x →
           isNaN x = true ∨ PrimFloat.eqb x 0%float = true →
           a_amount new = Some 0%float) ∧
     (raw_amount item = None → a_amount new = Some 0%float) ∧
     (∀ x, raw_returnRate item = Some x →
           isNaN x = false → PrimFloat.eqb x 0%float = false →
           a_returnRate new = Some x) ∧
     (∀ x, raw_returnRate item = Some x →
           isNaN x = true ∨ PrimFloat.eqb x 0%float = true →
           a_returnRate new = Some 0%float) ∧
     (raw_returnRate item = None → a_returnRate new = Some 0%float) ∧
     (∀ c, raw_currency item = Some c → c ≠ "" → a_currency new = Some c) ∧
     (raw_currency item = None ∨ raw_currency item = Some "" →
      a_currency new = Some "CNY") ∧
     a_lastUpdated new = Some (Date_toISOString pf (clockReads w)) ∧
     complete new) ∧
  (∀ ext w',
     a_name <$> take (length prev) (merge_assets pf prev ext w').1
       = a_name <$> prev ∧
     (Forall (λ e, a_id e = None) ext →
      a_id <$> take (length prev) (merge_assets pf prev ext w').1
        = a_id <$> prev)).
Proof.
  intros Hfresh. split; [|intros ext w'; apply merge_assets_keeps_positions].
  assert (Hf : findIndex (same_name (sanitize t item)) prev = None).
  { apply findIndex_None, Forall_forall. intros a Ha Hs%same_name_true.
    by apply (Hfresh a Ha). }
  assert (Hkeep : ∀ x, isNaN x = false → PrimFloat.eqb x 0%float = false →
                       or_number x 0%float = x).
  { intros x Hn Hz. unfold or_number, truthy_number. by rewrite Hn, Hz. }
  assert (Hzero : ∀ x, isNaN x = true ∨ PrimFloat.eqb x 0%float = true →
                       or_number x 0%float = 0%float).
  { intros x [Hn|Hz]; unfold or_number, truthy_number.
    - by rewrite Hn, orb_true_r.
    - by rewrite Hz. }
  assert (Hstr : ∀ (v : option string) d n, v = Some n → n ≠ "" →
                   or_string v d = n).
  { intros v d n -> Hn. unfold or_string.
    by rewrite (proj2 (truthy_string_Some n) Hn). }
  assert (Hdef : ∀ (v : option string) d, v = None ∨ v = Some "" →
                   or_string v d = d).
  { by intros v d [->| ->]. }
  rewrite (merge_one_insert pf prev w _ (sanitize_name_truthy t item) Hf).
  eexists. split; [reflexivity|].
  cbn [spread sanitize override a_id a_name a_category a_amount a_returnRate
       a_currency a_lastUpdated fst snd randomUUID now uuidDraws clockReads].
  split_and!; try done.
  - intros Hnd Hu. rewrite fmap_app. simpl. apply NoDup_app. split_and!.
    + done.
    + intros x Hx ->%list_elem_of_singleton. by apply Hu.
    + apply NoDup_singleton.
  - intros Hinj Hprev. split.
    + intros (a & Ha & Hin)%list_elem_of_fmap.
      rewrite Forall_forall in Hprev.
      destruct (Hprev a Hin) as (k & Hk & Hid).
      rewrite Hid in Ha. injection Ha as Ha%Hinj. lia.
    + apply Forall_app. split.
      * eapply Forall_impl; [exact Hprev|].
        intros a (k & Hk & Hid). exists k. split; [lia|done].
      * apply Forall_singleton. exists (uuidDraws w). split; [lia|done].
  - intros n Hn Hne. by rewrite (Hstr _ _ n Hn Hne).
  - intros Hn. by rewrite (Hdef _ _ Hn).
  - intros c Hc Hin. rewrite Hc. by rewrite sanitize_category_known.
  - intros Hc. by rewrite sanitize_category_unknown.
  - intros x -> Hn Hz. by rewrite <- (Hkeep x Hn Hz) at 2.
  - intros x -> Hx. simpl. by rewrite (Hzero x Hx).
  - by intros ->.
  - intros x -> Hn Hz. by rewrite <- (Hkeep x Hn Hz) at 2.
  - intros x -> Hx. simpl. by rewrite (Hzero x Hx).
  - by intros ->.
  - intros c Hc Hne. by rewrite (Hstr _ _ c Hc Hne).
  - intros Hc. by rewrite (Hdef _ _ Hc).
Qed.

Lemma unmatched_record_is_appended_witness :
  let pf := scenario_platform [] in
  let w := mkWorld 1 1 1 [] in
  let prev := [mkAsset (Some "uuid-0") (Some "Fund A") (Some "Fund")
                 (Some 10000%float) (Some 5%float) (Some "CNY")
                 (Some "2024-05-01T10:00:00.000Z")] in
  let item := mkRawItem (Some "Stock X") (Some "Stock") (Some 5000%float)
                (Some (-2)%float) None in
  (∃ new,
     (merge_one pf (prev, w) (sanitize "t" item)).1 = prev ++ [new] ∧
     a_id new = Some "uuid-1" ∧
     uuidDraws (merge_one pf (prev, w) (sanitize "t" item)).2 = 2 ∧
     (NoDup (a_id <$> prev) → Some "uuid-1" ∉ (a_id <$> prev) →
      NoDup (a_id <$> prev ++ [new])) ∧
     ((∀ j k, crypto_randomUUID pf j = crypto_randomUUID pf k → j = k) →
      Forall (issued_before pf 1) prev →
      (a_id new ∉ (a_id <$> prev)) ∧
      Forall (issued_before pf 2) (prev ++ [new])) ∧
     a_name new = Some "Stock X" ∧
     (∀ n, raw_name item = Some n → n ≠ "" → a_name new = Some n) ∧
     (raw_name item = None ∨ raw_name item = Some "" →
      a_name new = Some "未知资产") ∧
     (∀ c, raw_category item = Some c → c ∈ AssetCategory_values →
           a_category new = Some c) ∧
     ((∀ c, raw_category item = Some c → c ∉ AssetCategory_values) →
      a_category new = Some "Other") ∧
     (∀ x, raw_amount item = Some x →
           isNaN x = false → PrimFloat.eqb x 0%float = false →
           a_amount new = Some x) ∧
     (∀ x, raw_amount item = Some x →
           isNaN x = true ∨ PrimFloat.eqb x 0%float = true →
           a_amount new = Some 0%float) ∧
     (raw_amount item = None → a_amount new = Some 0%float) ∧
     (∀ x, raw_returnRate item = Some x →
           isNaN x = false → PrimFloat.eqb x 0%float = false →
           a_returnRate new = Some x) ∧
     (∀ x, raw_returnRate item = Some x →
           isNaN x = true ∨ PrimFloat.eqb x 0%float = true →
           a_returnRate new = Some 0%float) ∧
     (raw_returnRate item = None → a_returnRate new = Some 0%float) ∧
     (∀ c, raw_currency item = Some c → c ≠ "" → a_currency new = Some c) ∧
     (raw_currency item = None ∨ raw_currency item = Some "" →
      a_currency new = Some "CNY") ∧
     a_lastUpdated new = Some "2024-05-01T10:00:00.000Z" ∧
     complete new) ∧
  (∀ ext w',
     a_name <$> take (length prev) (merge_assets pf prev ext w').1
       = a_name <$> prev ∧
     (Forall (λ e, a_id e = None) ext →
      a_id <$> take (length prev) (merge_assets pf prev ext w').1
        = a_id <$> prev)).
Proof.
  intros pf w prev item.
  apply (unmatched_record_is_appended pf prev w "t" item).
  intros a ->%list_elem_of_singleton. discriminate.
Defined.

(** The scenario of the specification: Stock X into an empty list. *)
Example stock_X_scenario :
  (merge_one (scenario_platform []) ([], fresh_world)
     (sanitize "t" (mkRawItem (Some "Stock X") (Some "Stock") (Some 5000%float)
                      (Some (-2)%float) None))).1 =
  [mkAsset (Some "uuid-0") (Some "Stock X") (Some "Stock") (Some 5000%float)
     (Some (-2)%float) (Some "CNY") (Some "2024-05-01T10:00:00.000Z")].
Proof. reflexivity. Qed.

(** ** Today's point of the history *)

Lemma startsWith_refl (s : string) : startsWith s s = true.
Proof.
  unfold startsWith. induction s as [|c s IH]; simpl; [reflexivity|].
  destruct (ascii_dec c c) as [_|Hc]; [exact IH | by destruct Hc].
Qed.

Lemma update_history_found (pf : Platform) (nw rr : float) (ext : list Asset)
  (H : list HistoryPoint) (w : World) (i : nat) :
  findIndex (λ h, startsWith (h_date h) (today_of (Date_toISOString pf (clockReads w)))) H
    = Some i →
  (update_history pf nw rr ext H w).1 =
    <[i := newPoint nw rr ext (today_of (Date_toISOString pf (clockReads w)))]> H.
Proof. intros Hf. unfold update_history. simpl. by rewrite Hf. Qed.

Lemma update_history_not_found (pf : Platform) (nw rr : float) (ext : list Asset)
  (H : list HistoryPoint) (w : World) :
  findIndex (λ h, startsWith (h_date h) (today_of (Date_toISOString pf (clockReads w)))) H
    = None →
  (update_history pf nw rr ext H w).1 =
    H ++ [newPoint nw rr ext (today_of (Date_toISOString pf (clockReads w)))].
Proof. intros Hf. unfold update_history. simpl. by rewrite Hf. Qed.

(** C3. A history [H] of day-granular dates, updated on the day [D] the
    clock gives.  If [H] has a point dated [D], the first such point is
    replaced at its position and the length is the one of [H]; if it has
    none, the new point is appended and the length grows by one.  In both
    cases a history with at most one point per day stays one. *)
Theorem history_update_one_point_per_day (pf : Platform) (nw rr : float)
  (ext : list Asset) (H : list HistoryPoint) (w : World) :
  let D := today_of (Date_toISOString pf (clockReads w)) in
  let P := newPoint nw rr ext (today_of (Date_toISOString pf (clockReads w))) in
  let res := (update_history pf nw rr ext H w).1 in
  day_granular D H →
  h_date P = D ∧
  ((∃ h, h ∈ H ∧ h_date h = D) →
   ∃ i h, H !! i = Some h ∧ h_date h = D ∧
          (∀ j h', j < i → H !! j = Some h' → h_date h' ≠ D) ∧
          res = <[i := P]> H ∧ length res = length H) ∧
  ((∀ h, h ∈ H → h_date h ≠ D) →
   res = H ++ [P] ∧ length res = S (length H)) ∧
  (one_point_per_day H → one_point_per_day res).
Proof.
  intros D P res Hday. subst res.
  split; [reflexivity|].
  destruct (findIndex (λ h, startsWith (h_date h) D) H) as [i|] eqn:Hf.
  - rewrite (update_history_found pf nw rr ext H w i Hf). fold P.
    pose proof Hf as (h & Hh & Hp & Hleast)%findIndex_Some.
    assert (Hd : h_date h = D).
    { unfold day_granular in Hday. rewrite Forall_lookup in Hday.
      by apply (Hday i h Hh). }
    split_and!.
    + intros _. exists i, h. split_and!; try done.
      * intros j h' Hj Hh' Hd'. apply (Hleast j h' Hh' Hj).
        rewrite Hd'. apply startsWith_refl.
      * apply length_insert.
    + intros Hno. destruct (Hno h); [|done].
      by apply list_elem_of_lookup_2 in Hh.
    + unfold one_point_per_day. rewrite list_fmap_insert.
      rewrite list_insert_id; [done|].
      rewrite list_lookup_fmap, Hh. simpl. by rewrite Hd.
  - rewrite (update_history_not_found pf nw rr ext H w Hf). fold P.
    apply findIndex_None in Hf. rewrite Forall_forall in Hf.
    split_and!.
    + intros (h & Hin & Hd). destruct (Hf h Hin).
      rewrite Hd. apply startsWith_refl.
    + intros _. split; [done|]. rewrite length_app. simpl. lia.
    + unfold one_point_per_day. intros Hnd. rewrite fmap_app. simpl.
      apply NoDup_app. split_and!; [done| |apply NoDup_singleton].
      intros d (h & Hd & Hin)%list_elem_of_fmap Hd'%list_elem_of_singleton.
      apply (Hf h Hin). rewrite <- Hd, Hd'. apply startsWith_refl.
Qed.

Lemma history_update_one_point_per_day_witness :
  let pf0 := scenario_platform [] in
  let H := [mkHistoryPoint "2024-04-30" 1%float 1%float;
            mkHistoryPoint "2024-05-01" 2%float 2%float] in
  let w := fresh_world in
  let D := "2024-05-01" in
  let P := mkHistoryPoint "2024-05-01" 100%float 10%float in
  let res := (update_history pf0 100%float 10%float [] H w).1 in
  day_granular D H ∧
  h_date P = D ∧
  ((∃ h, h ∈ H ∧ h_date h = D) →
   ∃ i h, H !! i = Some h ∧ h_date h = D ∧
          (∀ j h', j < i → H !! j = Some h' → h_date h' ≠ D) ∧
          res = <[i := P]> H ∧ length res = length H) ∧
  ((∀ h, h ∈ H → h_date h ≠ D) →
   res = H ++ [P] ∧ length res = S (length H)) ∧
  (one_point_per_day H → one_point_per_day res).
Proof.
  intros pf0 H w D P res.
  assert (Hday : day_granular D H).
  { unfold day_granular, H. apply Forall_cons_2; [|apply Forall_cons_2].
    - vm_compute. discriminate.
    - reflexivity.
    - apply Forall_nil_2. }
  split; [exact Hday|].
  exact (history_update_one_point_per_day pf0 100%float 10%float [] H w Hday).
Defined.

Lemma startsWith_same_length (s d : string) :
  startsWith s d = true → String.length s = String.length d → s = d.
Proof.
  unfold startsWith. revert s.
  induction d as [|c d IH]; intros [|c' s]; simpl; try done.
  destruct (ascii_dec c c') as [->|]; [|done].
  intros Hp [= Hl]. f_equal. by apply IH.
Qed.

(** Dates of one fixed width, such as the ten characters of a calendar day,
    are day-granular for a day of that width. *)
Lemma fixed_width_day_granular (d : string) (H : list HistoryPoint) :
  Forall (λ h, String.length (h_date h) = String.length d) H →
  day_granular d H.
Proof.
  unfold day_granular. intros Hw. eapply Forall_impl; [exact Hw|].
  intros h Hl Hp. by apply startsWith_same_length.
Qed.

(** The fixed width is kept by the update when the day the clock gives has
    it. *)
Lemma update_history_fixed_width (pf : Platform) (nw rr : float)
  (ext : list Asset) (H : list HistoryPoint) (w : World) (k : nat) :
  String.length (today_of (Date_toISOString pf (clockReads w))) = k →
  Forall (λ h, String.length (h_date h) = k) H →
  Forall (λ h, String.length (h_date h) = k) (update_history pf nw rr ext H w).1.
Proof.
  intros Hk Hall.
  destruct (findIndex (λ h, startsWith (h_date h)
              (today_of (Date_toISOString pf (clockReads w)))) H) as [i|] eqn:Hf.
  - rewrite (update_history_found pf nw rr ext H w i Hf).
    by apply Forall_insert.
  - rewrite (update_history_not_found pf nw rr ext H w Hf).
    apply Forall_app. split; [done|]. by apply Forall_singleton.
Qed.

(** Without day granularity the comparison by [startsWith] shows: a point
    that carries a time of day is taken for today's point. *)
Example finer_date_is_replaced :
  (update_history (scenario_platform []) 100%float 10%float []
     [mkHistoryPoint "2024-05-01T08:00" 1%float 1%float] fresh_world).1 =
  [mkHistoryPoint "2024-05-01" 100%float 10%float].
Proof. reflexivity. Qed.

(** ** Derived metrics *)

Lemma zero_not_below_zero (x : float) :
  PrimFloat.eqb x 0%float = true → PrimFloat.ltb 0%float x = false.
Proof.
  rewrite FloatAxioms.eqb_spec, FloatAxioms.ltb_spec.
  change (Prim2SF 0%float) with (S754_zero false).
  destruct (Prim2SF x) as [s|s| |s m e]; simpl; try done.
  all: unfold SFeqb, SFltb; simpl; by destruct s.
Qed.


(** An asset with a return rate of 50 in a portfolio worth 0: the rate of
    the portfolio is 0. *)
Example zero_net_worth_rate :
  totalReturnRate
    [mkAsset (Some "a1") (Some "Cash") (Some "Cash") (Some 0%float)
       (Some 50%float) (Some "CNY") (Some "t0")] = 0%float.
Proof. reflexivity. Qed.

Example one_asset_metrics :
  let l := [mkAsset (Some "a1") (Some "Fund A") (Some "Fund") (Some 100%float)
              (Some 10%float) (Some "CNY") (Some "t0")] in
  totalNetWorth l = 100%float ∧ totalReturn l = 10%float ∧
  totalReturnRate l = 10%float.
Proof. vm_compute. done. Qed.

(** ** The upload handler *)

Lemma handleFileUpload_success (pf : Platform) (f : File) (s : AppState)
  (w w1 : World) (base64 : option string) (ext : list Asset) :
  fileToGenerativePart f = Resolved base64 →
  parseHoldingsScreenshot pf base64 w = (Resolved ext, w1) →
  handleFileUpload pf (Some f) s w =
    (mkAppState (merge_assets pf (assets s) ext w1).1
       (update_history pf (totalNetWorth (assets s)) (totalReturnRate (assets s))
          ext (history s) (merge_assets pf (assets s) ext w1).2).1
       (analysis s) false (isAnalyzing s),
     alert upload_ok_notice
       (update_history pf (totalNetWorth (assets s)) (totalReturnRate (assets s))
          ext (history s) (merge_assets pf (assets s) ext w1).2).2).
Proof.
  intros Hf Hp. unfold handleFileUpload. rewrite Hf, Hp.
  destruct (merge_assets pf (assets s) ext w1) as [newAssets w2]. simpl.
  by destruct (update_history pf (totalNetWorth (assets s))
                 (totalReturnRate (assets s)) ext (history s) w2).
Qed.

Lemma update_history_writes_today (pf : Platform) (nw rr : float)
  (ext : list Asset) (H : list HistoryPoint) (w : World) :
  ∃ i, (update_history pf nw rr ext H w).1 !! i =
         Some (newPoint nw rr ext (today_of (Date_toISOString pf (clockReads w)))) ∧
       ((update_history pf nw rr ext H w).1 =
          <[i := newPoint nw rr ext (today_of (Date_toISOString pf (clockReads w)))]> H ∨
        (update_history pf nw rr ext H w).1 =
          H ++ [newPoint nw rr ext (today_of (Date_toISOString pf (clockReads w)))]).
Proof.
  destruct (findIndex (λ h, startsWith (h_date h)
              (today_of (Date_toISOString pf (clockReads w)))) H) as [i|] eqn:Hf.
  - rewrite (update_history_found pf nw rr ext H w i Hf).
    apply findIndex_Some in Hf as (h & Hh & _).
    exists i. split; [|by left].
    apply list_lookup_insert_eq. by apply lookup_lt_Some in Hh.
  - rewrite (update_history_not_found pf nw rr ext H w Hf).
    exists (length H). split; [|by right].
    by rewrite lookup_app_r, Nat.sub_diag.
Qed.

Lemma single_asset_update_total (pf : Platform) (a e : Asset) (w : World)
  (n : string) (y : float) :
  a_name a = Some n → a_name e = Some n → n ≠ "" →
  a_amount e = Some y → truthy_number y = true →
  totalNetWorth (merge_assets pf [a] [e] w).1 = extracted_sum [e].
Proof.
  intros Ha He Hn Hy Ht.
  assert (Hi : findIndex (same_name e) [a] = Some 0).
  { apply findIndex_Some. exists a. split_and!; [done| |lia].
    apply same_name_true. by rewrite Ha, He. }
  unfold merge_assets. cbn [fold_left].
  rewrite (merge_one_update pf [a] w e a 0); [|by rewrite He; apply truthy_string_Some|done..].
  simpl. unfold totalNetWorth, extracted_sum. simpl.
  rewrite Hy. simpl. unfold or_number. by rewrite Ht.
Qed.

(** C4 (amended). After an upload whose extraction resolved with the records
    [ext], the history of the new state holds, at the place of today's
    point, a point whose net worth is the total net worth of the assets
    before the merge plus the raw sum of the amounts of [ext], a missing
    amount counting as 0.  The value is not recomputed over the merged
    list: when the holdings are one asset and [ext] is one record that
    updates it with a truthy amount, the value is the total before the
    merge plus the total after the merge. *)
Theorem todays_net_worth_is_pre_total_plus_raw_sum (pf : Platform) (f : File)
  (s : AppState) (w w1 : World) (base64 : option string) (ext : list Asset) :
  fileToGenerativePart f = Resolved base64 →
  parseHoldingsScreenshot pf base64 w = (Resolved ext, w1) →
  let s' := (handleFileUpload pf (Some f) s w).1 in
  let D := today_of (Date_toISOString pf
                       (clockReads (merge_assets pf (assets s) ext w1).2)) in
  assets s' = (merge_assets pf (assets s) ext w1).1 ∧
  extracted_sum [] = 0%float ∧
  (∀ l e, extracted_sum (l ++ [e]) =
          PrimFloat.add (extracted_sum l) (or_number_undef (a_amount e) 0%float)) ∧
  ∃ i P,
    history s' !! i = Some P ∧
    (history s' = <[i := P]> (history s) ∨ history s' = history s ++ [P]) ∧
    h_date P = D ∧
    h_totalNetWorth P =
      PrimFloat.add (totalNetWorth (assets s)) (extracted_sum ext) ∧
    (∀ a e n y,
       assets s = [a] → ext = [e] →
       a_name a = Some n → a_name e = Some n → n ≠ "" →
       a_amount e = Some y → truthy_number y = true →
       h_totalNetWorth P =
         PrimFloat.add (totalNetWorth (assets s)) (totalNetWorth (assets s'))).
Proof.
  intros Hf Hp s' D. subst s' D.
  rewrite (handleFileUpload_success pf f s w w1 base64 ext Hf Hp). simpl.
  split_and!; [done|done|..].
  - intros l e. unfold extracted_sum. by rewrite fold_left_app.
  - destruct (update_history_writes_today pf (totalNetWorth (assets s))
                (totalReturnRate (assets s)) ext (history s)
                (merge_assets pf (assets s) ext w1).2) as (i & Hi & Hshape).
    eexists i, _. split_and!; [exact Hi|exact Hshape|done|done|].
    intros a e n y Hs He Ha Hen Hn Hy Ht. simpl. rewrite Hs, He.
    by rewrite (single_asset_update_total pf a e w1 n y).
Qed.

Lemma todays_net_worth_is_pre_total_plus_raw_sum_witness :
  let pf := scenario_platform [Some (raw_fund_A 150%float)] in
  let s := holding_fund_A 100%float in
  let ext := [sanitize "2024-05-01T10:00:00.000Z" (raw_fund_A 150%float)] in
  let w1 := mkWorld 1 0 1 [] in
  let s' := (handleFileUpload pf (Some readable_file) s fresh_world).1 in
  (fileToGenerativePart readable_file = Resolved (Some "AAAA") ∧
   parseHoldingsScreenshot pf (Some "AAAA") fresh_world = (Resolved ext, w1)) ∧
  assets s' = (merge_assets pf (assets s) ext w1).1 ∧
  extracted_sum [] = 0%float ∧
  (∀ l e, extracted_sum (l ++ [e]) =
          PrimFloat.add (extracted_sum l) (or_number_undef (a_amount e) 0%float)) ∧
  ∃ i P,
    history s' !! i = Some P ∧
    (history s' = <[i := P]> (history s) ∨ history s' = history s ++ [P]) ∧
    h_date P = "2024-05-01" ∧
    h_totalNetWorth P =
      PrimFloat.add (totalNetWorth (assets s)) (extracted_sum ext) ∧
    (∀ a e n y,
       assets s = [a] → ext = [e] →
       a_name a = Some n → a_name e = Some n → n ≠ "" →
       a_amount e = Some y → truthy_number y = true →
       h_totalNetWorth P =
         PrimFloat.add (totalNetWorth (assets s)) (totalNetWorth (assets s'))).
Proof.
  intros pf s ext w1 s'.
  split; [split; reflexivity|].
  exact (todays_net_worth_is_pre_total_plus_raw_sum pf readable_file s
           fresh_world w1 (Some "AAAA") ext eq_refl eq_refl).
Defined.

(** Fund A at 100, updated to 150: the point written for today says 250, the
    merged holdings are worth 150. *)
Example updated_amount_is_counted_twice :
  let s' := (handleFileUpload (scenario_platform [Some (raw_fund_A 150%float)])
               (Some readable_file) (holding_fund_A 100%float) fresh_world).1 in
  h_totalNetWorth <$> history s' = [250%float] ∧
  totalNetWorth (assets s') = 150%float.
Proof. vm_compute. done. Qed.

(** The claim C4 as stated fails: Fund A at 0 is updated to 150, a differing
    amount, and the value written for today, 150, is the total net worth of
    the merged holdings. *)
Lemma zero_prior_amount_written_value_is_post_merge_total :
  let pf := scenario_platform [Some (raw_fund_A 150%float)] in
  let s := holding_fund_A 0%float in
  let ext := [sanitize "2024-05-01T10:00:00.000Z" (raw_fund_A 150%float)] in
  let s' := (handleFileUpload pf (Some readable_file) s fresh_world).1 in
  parseHoldingsScreenshot pf (Some "AAAA") fresh_world
    = (Resolved ext, mkWorld 1 0 1 []) ∧
  Exists (updates_with_differing_amount (assets s)) ext ∧
  history s' = [mkHistoryPoint "2024-05-01" 150%float 0%float] ∧
  totalNetWorth (assets s') = 150%float ∧
  ¬ (∀ P, P ∈ history s' → h_date P = "2024-05-01" →
          PrimFloat.eqb (h_totalNetWorth P) (totalNetWorth (assets s')) = false).
Proof.
  intros pf s ext s'.
  assert (Hh : history s' = [mkHistoryPoint "2024-05-01" 150%float 0%float]).
  { vm_compute. done. }
  assert (Ht : totalNetWorth (assets s') = 150%float).
  { vm_compute. done. }
  split_and!; [reflexivity| |exact Hh|exact Ht|].
  - apply Exists_cons_hd.
    exists 0, (fund_A 0%float), 0%float, 150%float.
    split_and!; reflexivity.
  - intros Hneq.
    specialize (Hneq (mkHistoryPoint "2024-05-01" 150%float 0%float)).
    rewrite Hh, Ht in Hneq.
    specialize (Hneq (list_elem_of_here _ _) eq_refl).
    vm_compute in Hneq. discriminate.
Qed.

(** The scenario of the specification: one asset worth 100 with a return of
    10, and an extraction that finds nothing.  The assets stay and today's
    point carries the unchanged total. *)
Example empty_extraction_scenario :
  let a := mkAsset (Some "a1") (Some "Fund A") (Some "Fund") (Some 100%float)
             (Some 10%float) (Some "CNY") (Some "t0") in
  (handleFileUpload (scenario_platform []) (Some readable_file)
     (mkAppState [a] [] None false false) fresh_world).1 =
  mkAppState [a] [mkHistoryPoint "2024-05-01" 100%float 10%float] None false false.
Proof. vm_compute. done. Qed.

(** Rounding gives further cases of agreement: next to 1e20 the prior amount
    1 of the updated asset is absorbed, before and after the merge. *)
Example absorbed_prior_amount :
  let big := mkAsset (Some "a0") (Some "Estate") (Some "Other") (Some 1e20%float)
               (Some 0%float) (Some "CNY") (Some "t0") in
  let s := mkAppState [big; fund_A 1%float] [] None false false in
  let s' := (handleFileUpload (scenario_platform [Some (raw_fund_A 2%float)])
               (Some readable_file) s fresh_world).1 in
  h_totalNetWorth <$> history s' = [totalNetWorth (assets s')].
Proof. vm_compute. done. Qed.

(** ** The extraction client *)

Lemma or_number_not_NaN (x : float) : isNaN (or_number x 0%float) = false.
Proof.
  unfold or_number. destruct (truthy_number x) eqn:Ht; [|reflexivity].
  unfold truthy_number in Ht. apply negb_true_iff, orb_false_iff in Ht.
  by destruct Ht.
Qed.

Lemma or_number_NaN (x : float) : isNaN x = true → or_number x 0%float = 0%float.
Proof.
  intros Hx. unfold or_number, truthy_number. rewrite Hx.
  by rewrite orb_true_r.
Qed.

Lemma sanitize_category_in_enumeration (v : option string) :
  sanitize_category v ∈ AssetCategory_values.
Proof.
  assert (Hother : category_value OTHER ∈ AssetCategory_values).
  { do 5 apply list_elem_of_further. apply list_elem_of_here. }
  unfold sanitize_category. destruct v as [c|]; [|exact Hother].
  destruct (includes AssetCategory_values (Some c)) eqn:Hi; [|exact Hother].
  by apply includes_elem_of.
Qed.

Lemma sanitize_sanitized (t : string) (item : RawItem) :
  sanitized (sanitize t item).
Proof.
  unfold sanitized. split_and!.
  - apply truthy_string_true, sanitize_name_truthy.
  - eexists. split; [reflexivity|]. apply sanitize_category_in_enumeration.
  - eexists. split; [reflexivity|]. apply or_number_not_NaN.
  - eexists. split; [reflexivity|]. apply or_number_not_NaN.
Qed.

Lemma map_sanitize_cons (pf : Platform) (w : World) (item : RawItem)
  (rest : list (option RawItem)) :
  map_sanitize pf w (Some item :: rest) =
    (cons (sanitize (Date_toISOString pf (clockReads w)) item)
       <$> (map_sanitize pf (now pf w).2 rest).1,
     (map_sanitize pf (now pf w).2 rest).2).
Proof.
  simpl. by destruct (map_sanitize _ _ rest).
Qed.

Lemma map_sanitize_sanitized (pf : Platform) (rawData : list (option RawItem))
  (w : World) :
  Forall sanitized (default [] (map_sanitize pf w rawData).1).
Proof.
  revert w. induction rawData as [|[item|] rest IH]; intros w.
  - constructor.
  - rewrite map_sanitize_cons. specialize (IH (now pf w).2).
    destruct (map_sanitize pf (now pf w).2 rest) as [[l|] w2]; simpl in *.
    + constructor; [apply sanitize_sanitized | exact IH].
    + constructor.
  - constructor.
Qed.

Lemma parse_response_text_sanitized (pf : Platform) (text : option string)
  (w : World) :
  Forall sanitized (parse_response_text pf text w).1.
Proof.
  unfold parse_response_text. destruct text as [s|]; [|by constructor].
  destruct (negb (truthy_string (Some s))); [by constructor|].
  destruct (JSON_parse pf s) as [[rawData|r| |]|]; try by constructor.
  pose proof (map_sanitize_sanitized pf rawData w) as Hm.
  by destruct (map_sanitize pf w rawData) as [r w1].
Qed.

Lemma merge_one_reads_clock (pf : Platform) (prev : list Asset) (w : World)
  (e : Asset) :
  truthy_string (a_name e) = true →
  clockReads (merge_one pf (prev, w) e).2 = S (clockReads w).
Proof.
  intros Ht. unfold merge_one. rewrite Ht. simpl.
  by destruct (findIndex (same_name e) prev).
Qed.

(** C9. Every record the sanitising step builds has a non-empty name, a
    category of the enumeration and an amount and a return rate that are
    numbers other than NaN: a missing or empty raw name gives the
    placeholder, a raw category outside the enumeration gives "Other", a raw
    amount or return rate that is missing or NaN gives 0.  The same holds of
    every record of the list the client returns, so the merge never skips
    one of them: it reads the clock, which only the update and the insertion
    do. *)
Theorem client_records_are_sanitized (pf : Platform) (text : option string)
  (w : World) (t : string) (item : RawItem) :
  sanitized (sanitize t item) ∧
  (truthy_string (raw_name item) = false →
   a_name (sanitize t item) = Some "未知资产") ∧
  ((∀ c, raw_category item = Some c → c ∉ AssetCategory_values) →
   a_category (sanitize t item) = Some "Other") ∧
  (isNaN (Number (raw_amount item)) = true →
   a_amount (sanitize t item) = Some 0%float) ∧
  (isNaN (Number (raw_returnRate item)) = true →
   a_returnRate (sanitize t item) = Some 0%float) ∧
  Forall sanitized (parse_response_text pf text w).1 ∧
  (∀ e prev w0,
     e ∈ (parse_response_text pf text w).1 →
     truthy_string (a_name e) = true ∧
     clockReads (merge_one pf (prev, w0) e).2 = S (clockReads w0)).
Proof.
  split_and!.
  - apply sanitize_sanitized.
  - intros Hn. simpl. f_equal. unfold or_string.
    destruct (raw_name item) as [s|]; [|reflexivity]. by rewrite Hn.
  - intros Hc. simpl. by rewrite sanitize_category_unknown.
  - intros Hx. simpl. by rewrite or_number_NaN.
  - intros Hx. simpl. by rewrite or_number_NaN.
  - apply parse_response_text_sanitized.
  - intros e prev w0 He.
    pose proof (parse_response_text_sanitized pf text w) as Hall.
    rewrite Forall_forall in Hall. destruct (Hall e He) as (Hn & _).
    apply truthy_string_true in Hn. split; [done|].
    by apply merge_one_reads_clock.
Qed.

Example raw_item_without_fields :
  sanitize "t" (mkRawItem None None None None None) =
  mkAsset None (Some "未知资产") (Some "Other") (Some 0%float) (Some 0%float)
    (Some "CNY") (Some "t").
Proof. reflexivity. Qed.

Example raw_item_with_unknown_category :
  a_category (sanitize "t" (mkRawItem (Some "Gold") (Some "Commodity")
                              (Some 10%float) None None)) = Some "Other".
Proof. reflexivity. Qed.

(** *** What the steps leave of the world: only counters move *)

Lemma map_sanitize_alerts (pf : Platform) (rawData : list (option RawItem))
  (w : World) :
  alerts (map_sanitize pf w rawData).2 = alerts w.
Proof.
  revert w. induction rawData as [|[item|] rest IH]; intros w; try done.
  rewrite map_sanitize_cons. simpl. by rewrite IH.
Qed.

Lemma parse_response_text_alerts (pf : Platform) (text : option string)
  (w : World) :
  alerts (parse_response_text pf text w).2 = alerts w.
Proof.
  unfold parse_response_text. destruct text as [s|]; [|done].
  destruct (negb (truthy_string (Some s))); [done|].
  destruct (JSON_parse pf s) as [[rawData|r| |]|]; try done.
  pose proof (map_sanitize_alerts pf rawData w) as Hm.
  by destruct (map_sanitize pf w rawData).
Qed.

Lemma merge_one_alerts (pf : Platform) (l : list Asset) (w : World) (e : Asset) :
  alerts (merge_one pf (l, w) e).2 = alerts w.
Proof.
  unfold merge_one. destruct (negb (truthy_string (a_name e))); [done|].
  by destruct (findIndex (same_name e) l).
Qed.

Lemma merge_assets_alerts (pf : Platform) (ext prev : list Asset) (w : World) :
  alerts (merge_assets pf prev ext w).2 = alerts w.
Proof.
  unfold merge_assets. revert prev w.
  induction ext as [|e ext IH]; intros prev w; [done|]. cbn [fold_left].
  destruct (merge_one pf (prev, w) e) as [l w1] eqn:He.
  rewrite IH. pose proof (merge_one_alerts pf prev w e) as Ha.
  by rewrite He in Ha.
Qed.

Lemma update_history_alerts (pf : Platform) (nw rr : float) (ext : list Asset)
  (H : list HistoryPoint) (w : World) :
  alerts (update_history pf nw rr ext H w).2 = alerts w.
Proof.
  unfold update_history. simpl.
  by destruct (findIndex _ H).
Qed.

Lemma map_sanitize_null (pf : Platform) (rawData : list (option RawItem))
  (w : World) :
  None ∈ rawData → (map_sanitize pf w rawData).1 = None.
Proof.
  revert w. induction rawData as [|[item|] rest IH]; intros w Hin.
  - by apply not_elem_of_nil in Hin.
  - rewrite map_sanitize_cons. simpl.
    apply elem_of_cons in Hin as [?|Hin]; [done|]. by rewrite IH.
  - done.
Qed.

Lemma unusable_text_empty_list (pf : Platform) (text : option string) (w : World) :
  unusable_text pf text → (parse_response_text pf text w).1 = [].
Proof.
  intros [Hf|(s & -> & Hs)]; unfold parse_response_text.
  - destruct text as [s|]; [|done]. by rewrite Hf.
  - destruct (negb (truthy_string (Some s))); [done|].
    destruct Hs as [->|[[r ->]|[->|[->|(items & -> & Hnull)]]]]; try done.
    pose proof (map_sanitize_null pf items w Hnull) as Hm.
    destruct (map_sanitize pf w items) as [r w1]. simpl in *. by rewrite Hm.
Qed.

Lemma upload_notices_differ : upload_ok_notice ≠ upload_failed_notice.
Proof.
  intros H%String.eqb_eq. vm_compute in H. discriminate.
Qed.

Lemma handleFileUpload_alerts (pf : Platform) (f : File) (s : AppState)
  (w : World) :
  alerts (handleFileUpload pf (Some f) s w).2 =
    alerts w ++
    [match fileToGenerativePart f with
     | Rejected => upload_failed_notice
     | Resolved _ =>
         match ai_generateContent pf (requests w) with
         | Rejected => upload_failed_notice
         | Resolved _ => upload_ok_notice
         end
     end].
Proof.
  unfold handleFileUpload.
  destruct (fileToGenerativePart f) as [base64|]; [|done].
  unfold parseHoldingsScreenshot, generateContent.
  destruct (ai_generateContent pf (requests w)) as [text|]; [|done].
  destruct (parse_response_text pf text _) as [ext w1] eqn:Hp.
  destruct (merge_assets pf (assets s) ext w1) as [newAssets w2] eqn:Hm.
  destruct (update_history pf _ _ ext (history s) w2) as [newHistory w3] eqn:Hh.
  simpl. f_equal.
  pose proof (update_history_alerts pf (totalNetWorth (assets s))
                (totalReturnRate (assets s)) ext (history s) w2) as H3.
  pose proof (merge_assets_alerts pf ext (assets s) w1) as H2.
  pose proof (parse_response_text_alerts pf text
                (mkWorld (clockReads w) (uuidDraws w) (S (requests w)) (alerts w)))
    as H1.
  rewrite Hh in H3. rewrite Hm in H2. rewrite Hp in H1. simpl in *. congruence.
Qed.

(** C7. When the service answers with a text that is missing, empty, not
    parsable, or parsed to something that is not an array of non-null
    items, the extraction client resolves with the empty list.  The caller
    then leaves the holdings as they were and shows the notice of success.
    The notice of failure is shown exactly when one of the two awaited
    calls rejected: the reading of the file or the request to the service. *)
Theorem unusable_response_gives_empty_list (pf : Platform) (f : File)
  (s : AppState) (w : World) (base64 text : option string) :
  ai_generateContent pf (requests w) = Resolved text →
  unusable_text pf text →
  (parseHoldingsScreenshot pf base64 w).1 = Resolved [] ∧
  (fileToGenerativePart f = Resolved base64 →
   assets (handleFileUpload pf (Some f) s w).1 = assets s ∧
   alerts (handleFileUpload pf (Some f) s w).2 = alerts w ++ [upload_ok_notice]) ∧
  (∀ f' s' w',
     alerts (handleFileUpload pf (Some f') s' w').2 =
       alerts w' ++ [upload_failed_notice] ↔
     fileToGenerativePart f' = Rejected ∨
     ai_generateContent pf (requests w') = Rejected).
Proof.
  intros Hr Hu.
  assert (Hc : (parseHoldingsScreenshot pf base64 w).1 = Resolved []).
  { unfold parseHoldingsScreenshot, generateContent. rewrite Hr.
    pose proof (unusable_text_empty_list pf text
                  (mkWorld (clockReads w) (uuidDraws w) (S (requests w)) (alerts w))
                  Hu) as He.
    destruct (parse_response_text pf text _) as [l w2]. simpl in *.
    by rewrite He. }
  split_and!; [exact Hc| |].
  - intros Hf. split.
    + destruct (parseHoldingsScreenshot pf base64 w) as [r w1] eqn:Hp.
      simpl in Hc. subst r.
      by rewrite (handleFileUpload_success pf f s w w1 base64 [] Hf Hp).
    + by rewrite handleFileUpload_alerts, Hf, Hr.
  - intros f' s' w'. rewrite handleFileUpload_alerts. split.
    + intros [= Hn]%app_inv_head.
      destruct (fileToGenerativePart f'); [|by left].
      destruct (ai_generateContent pf (requests w')); [|by right].
      by destruct upload_notices_differ.
    + intros [->| ->]; [done|]. by destruct (fileToGenerativePart f').
Qed.

Lemma unusable_response_gives_empty_list_witness :
  let pf := mkPlatform (λ _, None) (λ _, "2024-05-01T10:00:00.000Z")
              (λ k, "uuid-" +:+ pretty k) (λ _, Resolved (Some "not json")) in
  let s := holding_fund_A 100%float in
  (parseHoldingsScreenshot pf (Some "AAAA") fresh_world).1 = Resolved [] ∧
  (fileToGenerativePart readable_file = Resolved (Some "AAAA") →
   assets (handleFileUpload pf (Some readable_file) s fresh_world).1 = assets s ∧
   alerts (handleFileUpload pf (Some readable_file) s fresh_world).2 =
     alerts fresh_world ++ [upload_ok_notice]) ∧
  (∀ f' s' w',
     alerts (handleFileUpload pf (Some f') s' w').2 =
       alerts w' ++ [upload_failed_notice] ↔
     fileToGenerativePart f' = Rejected ∨
     ai_generateContent pf (requests w') = Rejected).
Proof.
  intros pf s.
  apply (unusable_response_gives_empty_list pf readable_file s fresh_world
           (Some "AAAA") (Some "not json")).
  - reflexivity.
  - right. exists "not json". split; [reflexivity|]. left. reflexivity.
Defined.

(** A request that rejects: the holdings stay and the notice of failure is
    shown. *)
Example rejected_request_shows_failure :
  let pf := mkPlatform (λ _, None) (λ _, "2024-05-01T10:00:00.000Z")
              (λ k, "uuid-" +:+ pretty k) (λ _, Rejected) in
  handleFileUpload pf (Some readable_file) (holding_fund_A 100%float) fresh_world =
  (holding_fund_A 100%float, mkWorld 0 0 1 [upload_failed_notice]).
Proof. reflexivity. Qed.

(** ** The analysis handler *)

(** C8. With no asset in the state, [handleRunAnalysis] shows the notice that
    assets are needed and returns: the state, and with it the stored
    analysis, is the one it was given, and no request has gone to the
    service. *)
Theorem analysis_without_assets_is_rejected (pf : Platform) (s : AppState)
  (w : World) :
  assets s = [] →
  (handleRunAnalysis pf s w).1 = s ∧
  analysis (handleRunAnalysis pf s w).1 = analysis s ∧
  requests (handleRunAnalysis pf s w).2 = requests w ∧
  alerts (handleRunAnalysis pf s w).2 = alerts w ++ [no_assets_notice].
Proof.
  intros He. unfold handleRunAnalysis. rewrite He. by simpl.
Qed.

Lemma analysis_without_assets_is_rejected_witness :
  let pf := scenario_platform [] in
  let s := mkAppState [] [] (Some (JAnalysis (mkAnalysisResponse "a" "b" "c")))
             false false in
  (handleRunAnalysis pf s fresh_world).1 = s ∧
  analysis (handleRunAnalysis pf s fresh_world).1 = analysis s ∧
  requests (handleRunAnalysis pf s fresh_world).2 = requests fresh_world ∧
  alerts (handleRunAnalysis pf s fresh_world).2 =
    alerts fresh_world ++ [no_assets_notice].
Proof.
  intros pf s.
  apply (analysis_without_assets_is_rejected pf s fresh_world).
  reflexivity.
Defined.

(** With an asset in the state the request is sent. *)
Lemma analysis_with_assets_sends_request (pf : Platform) (s : AppState)
  (w : World) :
  assets s ≠ [] → requests (handleRunAnalysis pf s w).2 = S (requests w).
Proof.
  intros Hne. unfold handleRunAnalysis.
  destruct (assets s) as [|a l]; [done|].
  unfold generateWealthAnalysis, generateContent.
  destruct (ai_generateContent pf (requests w)) as [[t|]|]; try done.
  destruct (negb (truthy_string (Some t))); [done|].
  by destruct (JSON_parse pf t).
Qed.

(** ** Records of one batch that share a name *)

Section CountNamed.

Context (pf : Platform) (n : string).







End CountNamed.

Lemma findIndex_app_new {A} (p : A → bool) (l : list A) (x : A) :
  Forall (λ y, p y ≠ true) l → p x = true →
  findIndex p (l ++ [x]) = Some (length l).
Proof.
  intros Hl Hx. apply findIndex_Some. exists x. split_and!.
  - by rewrite lookup_app_r, Nat.sub_diag.
  - done.
  - intros j y Hy Hj. rewrite lookup_app_l in Hy by done.
    rewrite Forall_lookup in Hl. by apply (Hl j y).
Qed.



(** Two records named "Fund A" into an empty list: one asset, with the amount
    of the second record and the identifier drawn for the first. *)
Example fund_A_twice_in_one_batch :
  (merge_assets (scenario_platform []) []
     [sanitize "t" (raw_fund_A 100%float); sanitize "t" (raw_fund_A 150%float)]
     fresh_world).1 =
  [mkAsset (Some "uuid-0") (Some "Fund A") (Some "Fund") (Some 150%float)
     (Some 5%float) (Some "CNY") (Some "2024-05-01T10:00:00.000Z")].
Proof. reflexivity. Qed.

(** ** Splitting strings: the payload of a data URL and the day of a timestamp *)

Lemma split_not_nil (sep : ascii) (s : string) : split sep s ≠ [].
Proof.
  destruct s as [|c s]; simpl; [done|].
  destruct (Ascii.eqb c sep); [done|]. by destruct (split sep s).
Qed.

Lemma split_without_separator (sep : ascii) (s : string) :
  sep ∉ list_ascii_of_string s → split sep s = [s].
Proof.
  induction s as [|c s IH]; simpl; [done|].
  intros Hn. apply not_elem_of_cons in Hn as [Hc Hs].
  destruct (Ascii.eqb c sep) eqn:Heq.
  - apply Ascii.eqb_eq in Heq. by destruct Hc.
  - by rewrite IH.
Qed.

Lemma split_at_first_separator (sep : ascii) (a b : string) :
  sep ∉ list_ascii_of_string a →
  split sep (a +:+ String sep b) = a :: split sep b.
Proof.
  induction a as [|c a IH]; simpl.
  - intros _. by rewrite Ascii.eqb_refl.
  - intros Hn. apply not_elem_of_cons in Hn as [Hc Hs].
    destruct (Ascii.eqb c sep) eqn:Heq.
    + apply Ascii.eqb_eq in Heq. by destruct Hc.
    + change (String.append a (String sep b)) with (a +:+ String sep b).
      by rewrite IH.
Qed.

Lemma split_head_prefix (sep : ascii) (s : string) :
  ∃ h t, split sep s = h :: t ∧ String.prefix h s = true ∧
         sep ∉ list_ascii_of_string h.
Proof.
  induction s as [|c s (h & t & Hs & Hp & Hn)]; simpl.
  - exists "", []. split_and!; [done|done|apply not_elem_of_nil].
  - destruct (Ascii.eqb c sep) eqn:Heq.
    + exists "", (split sep s). split_and!; [done|done|apply not_elem_of_nil].
    + rewrite Hs. exists (String c h), t. split_and!; [done| |].
      * simpl. by destruct (ascii_dec c c).
      * simpl. apply not_elem_of_cons. split; [|done].
        intros ->. by rewrite Ascii.eqb_refl in Heq.
Qed.

(** X1. [fileToGenerativePart] rejects when the reader fails; otherwise it
    resolves with the text between the first and the second comma of the
    data URL: the whole payload when the payload has no comma (base64 has
    none), the payload cut at its first comma otherwise, and [undefined]
    when the data URL has no comma at all. *)
Theorem data_url_payload (header payload tail url : string) :
  fileToGenerativePart (mkFile Rejected) = Rejected ∧
  (","%char ∉ list_ascii_of_string header → ","%char ∉ list_ascii_of_string payload →
   fileToGenerativePart (mkFile (Resolved (header +:+ "," +:+ payload)))
     = Resolved (Some payload) ∧
   fileToGenerativePart
     (mkFile (Resolved (header +:+ "," +:+ payload +:+ "," +:+ tail)))
     = Resolved (Some payload)) ∧
  (","%char ∉ list_ascii_of_string url →
   fileToGenerativePart (mkFile (Resolved url)) = Resolved None).
Proof.
  split_and!.
  - reflexivity.
  - intros Hh Hp. unfold fileToGenerativePart. simpl. split.
    + change ("," +:+ payload) with (String "," payload).
      rewrite (split_at_first_separator "," header payload Hh).
      by rewrite (split_without_separator "," payload Hp).
    + change ("," +:+ payload +:+ "," +:+ tail)
        with (String "," (payload +:+ String "," tail)).
      rewrite (split_at_first_separator "," header _ Hh).
      by rewrite (split_at_first_separator "," payload tail Hp).
  - intros Hu. unfold fileToGenerativePart. simpl.
    by rewrite (split_without_separator "," url Hu).
Qed.

(** X2. The day [new Date().toISOString().split('T')[0]] is a prefix of the
    timestamp and holds no 'T'; for a timestamp that is a day without 'T'
    followed by 'T' and a time it is that day; taking the day of a day
    changes nothing. *)
Theorem day_of_timestamp (iso d time : string) :
  startsWith iso (today_of iso) = true ∧
  ("T"%char ∉ list_ascii_of_string (today_of iso)) ∧
  today_of (today_of iso) = today_of iso ∧
  ("T"%char ∉ list_ascii_of_string d → today_of (d +:+ "T" +:+ time) = d).
Proof.
  destruct (split_head_prefix "T" iso) as (h & t & Hs & Hp & Hn).
  assert (Hd : today_of iso = h) by (unfold today_of; by rewrite Hs).
  rewrite Hd. split_and!; [exact Hp|exact Hn| |].
  - unfold today_of. by rewrite (split_without_separator "T" h Hn).
  - intros Hday. unfold today_of.
    change ("T" +:+ time) with (String "T" time).
    by rewrite (split_at_first_separator "T" d time Hday).
Qed.

Example day_of_iso_timestamp :
  today_of "2024-05-01T10:00:00.000Z" = "2024-05-01" ∧
  fileToGenerativePart readable_file = Resolved (Some "AAAA").
Proof. split; reflexivity. Qed.

(** ** The history over several updates *)

Lemma findIndex_insert_same {A} (p : A → bool) (l : list A) (i : nat) (x : A) :
  findIndex p l = Some i → p x = true → findIndex p (<[i := x]> l) = Some i.
Proof.
  intros (y & Hy & _ & Hleast)%findIndex_Some Hx.
  apply findIndex_Some. exists x. split_and!.
  - apply list_lookup_insert_eq. by apply lookup_lt_Some in Hy.
  - done.
  - intros j z Hz Hj. rewrite list_lookup_insert_ne in Hz by lia.
    by apply (Hleast j z).
Qed.

(** X3. Two updates of the history on the same day: the second overwrites
    what the first wrote, and the history is the one the second update
    alone gives.  In particular the second update adds no point. *)
Theorem second_update_of_the_day_overwrites (pf : Platform)
  (nw rr nw' rr' : float) (ext ext' : list Asset) (H : list HistoryPoint)
  (w : World) :
  today_of (Date_toISOString pf (S (clockReads w))) =
    today_of (Date_toISOString pf (clockReads w)) →
  (update_history pf nw' rr' ext' (update_history pf nw rr ext H w).1
     (update_history pf nw rr ext H w).2).1
    = (update_history pf nw' rr' ext' H w).1 ∧
  length (update_history pf nw' rr' ext' (update_history pf nw rr ext H w).1
            (update_history pf nw rr ext H w).2).1
    = length (update_history pf nw rr ext H w).1.
Proof.
  intros Hday.
  set (D := today_of (Date_toISOString pf (clockReads w))) in *.
  assert (Hw : clockReads (update_history pf nw rr ext H w).2 = S (clockReads w)).
  { unfold update_history. simpl. by destruct (findIndex _ H). }
  assert (Hfirst :
    (update_history pf nw' rr' ext' (update_history pf nw rr ext H w).1
       (update_history pf nw rr ext H w).2).1
    = (update_history pf nw' rr' ext' H w).1).
  { destruct (findIndex (λ h, startsWith (h_date h) D) H) as [i|] eqn:Hf.
    - rewrite (update_history_found pf nw rr ext H w i Hf).
      rewrite (update_history_found pf nw' rr' ext' H w i Hf).
      rewrite (update_history_found pf nw' rr' ext' _ _ i).
      + rewrite Hw, Hday. apply list_insert_insert_eq.
      + rewrite Hw, Hday. apply findIndex_insert_same; [exact Hf|].
        apply startsWith_refl.
    - rewrite (update_history_not_found pf nw rr ext H w Hf).
      rewrite (update_history_not_found pf nw' rr' ext' H w Hf).
      rewrite (update_history_found pf nw' rr' ext' _ _ (length H)).
      + rewrite Hw, Hday. rewrite insert_app_r_alt by done.
        by rewrite Nat.sub_diag.
      + rewrite Hw, Hday. apply findIndex_app_new.
        * by apply findIndex_None.
        * apply startsWith_refl. }
  split; [exact Hfirst|]. rewrite Hfirst.
  destruct (findIndex (λ h, startsWith (h_date h) D) H) as [i|] eqn:Hf.
  - rewrite (update_history_found pf nw rr ext H w i Hf).
    rewrite (update_history_found pf nw' rr' ext' H w i Hf).
    by rewrite !length_insert.
  - rewrite (update_history_not_found pf nw rr ext H w Hf).
    rewrite (update_history_not_found pf nw' rr' ext' H w Hf).
    by rewrite !length_app.
Qed.

Lemma second_update_of_the_day_overwrites_witness :
  let pf := scenario_platform [] in
  let H := [mkHistoryPoint "2024-04-30" 1%float 1%float] in
  let r1 := update_history pf 100%float 10%float [] H fresh_world in
  (update_history pf 250%float 5%float [] r1.1 r1.2).1
    = (update_history pf 250%float 5%float [] H fresh_world).1 ∧
  length (update_history pf 250%float 5%float [] r1.1 r1.2).1 = length r1.1.
Proof.
  intros pf H r1.
  apply (second_update_of_the_day_overwrites pf 100%float 10%float 250%float
           5%float [] [] H fresh_world).
  reflexivity.
Defined.

(** X4. An update of the history touches one position: every point of the
    history but the one at the position written stays where and what it
    was, no point is removed, and at most one is added. *)
Theorem history_update_keeps_other_points (pf : Platform) (nw rr : float)
  (ext : list Asset) (H : list HistoryPoint) (w : World) :
  ∃ i,
    (update_history pf nw rr ext H w).1 !! i =
      Some (newPoint nw rr ext (today_of (Date_toISOString pf (clockReads w)))) ∧
    (∀ j, j ≠ i → (update_history pf nw rr ext H w).1 !! j = H !! j) ∧
    (length H ≤ length (update_history pf nw rr ext H w).1)%nat ∧
    (length (update_history pf nw rr ext H w).1 ≤ S (length H))%nat.
Proof.
  destruct (findIndex (λ h, startsWith (h_date h)
              (today_of (Date_toISOString pf (clockReads w)))) H) as [i|] eqn:Hf.
  - rewrite (update_history_found pf nw rr ext H w i Hf).
    apply findIndex_Some in Hf as (h & Hh & _).
    exists i. rewrite length_insert. split_and!.
    + apply list_lookup_insert_eq. by apply lookup_lt_Some in Hh.
    + intros j Hj. by apply list_lookup_insert_ne.
    + lia.
    + lia.
  - rewrite (update_history_not_found pf nw rr ext H w Hf).
    exists (length H). rewrite length_app. simpl. split_and!.
    + by rewrite lookup_app_r, Nat.sub_diag.
    + intros j Hj. destruct (decide (j < length H)) as [Hlt|Hge].
      * by rewrite lookup_app_l.
      * rewrite !lookup_ge_None_2; [done|lia|].
        rewrite length_app. simpl. lia.
    + lia.
    + lia.
Qed.

(** ** The extraction client, item by item *)

Lemma map_sanitize_all_items (pf : Platform) (items : list RawItem) (w : World) :
  map_sanitize pf w (Some <$> items) =
    (Some (imap (λ k item, sanitize (Date_toISOString pf (clockReads w + k)) item)
             items),
     mkWorld (clockReads w + length items) (uuidDraws w) (requests w) (alerts w)).
Proof.
  revert w. induction items as [|item items IH]; intros w.
  - simpl. rewrite Nat.add_0_r. by destruct w.
  - rewrite fmap_cons, map_sanitize_cons, IH. simpl. f_equal.
    + rewrite Nat.add_0_r. do 2 f_equal. apply imap_ext.
      intros k x _. simpl. do 2 f_equal. lia.
    + f_equal. lia.
Qed.

(** X5. On a text that parses to an array, the client converts every item or
    none: with a [null] element anywhere the whole answer is dropped and the
    list is empty; without one there is one record per item, in the order of
    the items, the k-th stamped with the k-th reading of the clock. *)
Theorem client_converts_all_items_or_none (pf : Platform) (s : string)
  (w : World) (rawData : list (option RawItem)) :
  s ≠ "" → JSON_parse pf s = Some (JArray rawData) →
  (None ∈ rawData → (parse_response_text pf (Some s) w).1 = []) ∧
  (∀ items, rawData = Some <$> items →
     (parse_response_text pf (Some s) w).1 =
       imap (λ k item, sanitize (Date_toISOString pf (clockReads w + k)) item)
         items ∧
     length (parse_response_text pf (Some s) w).1 = length items ∧
     clockReads (parse_response_text pf (Some s) w).2 =
       clockReads w + length items).
Proof.
  intros Hs Hp. split.
  - intros Hnull. apply unusable_text_empty_list. right. exists s.
    split; [done|]. do 4 right. by exists rawData.
  - intros items ->. unfold parse_response_text.
    assert (Ht : truthy_string (Some s) = true) by by apply truthy_string_Some.
    rewrite Ht, Hp. simpl. rewrite map_sanitize_all_items. simpl.
    split_and!; [done| |done]. by rewrite length_imap.
Qed.

Lemma client_converts_all_items_or_none_witness :
  let items := [raw_fund_A 100%float; mkRawItem None None None None None] in
  let pf := scenario_platform (Some <$> items) in
  (None ∈ (Some <$> items) →
   (parse_response_text pf (Some "[...]") fresh_world).1 = []) ∧
  (∀ items', Some <$> items = Some <$> items' →
     (parse_response_text pf (Some "[...]") fresh_world).1 =
       imap (λ k item, sanitize (Date_toISOString pf (clockReads fresh_world + k))
                         item) items' ∧
     length (parse_response_text pf (Some "[...]") fresh_world).1 = length items' ∧
     clockReads (parse_response_text pf (Some "[...]") fresh_world).2 =
       clockReads fresh_world + length items').
Proof.
  intros items pf.
  apply (client_converts_all_items_or_none pf "[...]" fresh_world (Some <$> items)).
  - discriminate.
  - reflexivity.
Defined.

(** One [null] among the items: nothing is extracted. *)
Example null_item_drops_the_batch :
  (parse_response_text (scenario_platform [Some (raw_fund_A 100%float); None])
     (Some "[...]") fresh_world).1 = [].
Proof. reflexivity. Qed.

Lemma or_string_idempotent (v : option string) (d : string) :
  d ≠ "" → or_string (Some (or_string v d)) d = or_string v d.
Proof.
  intros Hd.
  assert (Ht : truthy_string (Some (or_string v d)) = true).
  { apply truthy_string_Some. unfold or_string. destruct v as [x|]; [|done].
    destruct (truthy_string (Some x)) eqn:Hx; [|done].
    by apply truthy_string_Some. }
  unfold or_string at 1. by rewrite Ht.
Qed.

Lemma or_number_idempotent (x : float) :
  or_number (or_number x 0%float) 0%float = or_number x 0%float.
Proof.
  assert (Hin : or_number x 0%float = if truthy_number x then x else 0%float)
    by reflexivity.
  destruct (truthy_number x) eqn:Hx; rewrite Hin.
  - unfold or_number. by rewrite Hx.
  - reflexivity.
Qed.

(** X6. Sanitising is idempotent: a record of the client, read again as a raw
    item, is sanitised to itself.  No default is applied twice and no field
    moves. *)
Theorem sanitize_idempotent (t : string) (item : RawItem) :
  sanitize t (raw_of (sanitize t item)) = sanitize t item.
Proof.
  unfold sanitize, raw_of. simpl. f_equal.
  - f_equal. by apply or_string_idempotent.
  - f_equal. apply sanitize_category_known, sanitize_category_in_enumeration.
  - f_equal. apply or_number_idempotent.
  - f_equal. apply or_number_idempotent.
  - f_equal. by apply or_string_idempotent.
Qed.

(** ** Invariants of the holdings *)

Lemma sanitize_client_record (t : string) (item : RawItem) :
  client_record (sanitize t item).
Proof.
  unfold client_record. split_and!; try by eexists.
  apply truthy_string_true, sanitize_name_truthy.
Qed.

Lemma map_sanitize_Forall (P : Asset → Prop) (pf : Platform)
  (rawData : list (option RawItem)) (w : World) :
  (∀ t item, P (sanitize t item)) →
  Forall P (default [] (map_sanitize pf w rawData).1).
Proof.
  intros HP. revert w. induction rawData as [|[item|] rest IH]; intros w.
  - constructor.
  - rewrite map_sanitize_cons. specialize (IH (now pf w).2).
    destruct (map_sanitize pf (now pf w).2 rest) as [[l|] w2]; simpl in *.
    + constructor; [apply HP | exact IH].
    + constructor.
  - constructor.
Qed.

Lemma parse_response_text_Forall (P : Asset → Prop) (pf : Platform)
  (text : option string) (w : World) :
  (∀ t item, P (sanitize t item)) →
  Forall P (parse_response_text pf text w).1.
Proof.
  intros HP. unfold parse_response_text. destruct text as [s|]; [|by constructor].
  destruct (negb (truthy_string (Some s))); [by constructor|].
  destruct (JSON_parse pf s) as [[rawData|r| |]|]; try by constructor.
  pose proof (map_sanitize_Forall P pf rawData w HP) as Hm.
  by destruct (map_sanitize pf w rawData) as [r w1].
Qed.

Lemma spread_client_record_well_formed (a e : Asset) (t : string) :
  client_record e → sanitized e → complete a →
  complete (spread (spread a e) (stamp t)) ∧
  sanitized (spread (spread a e) (stamp t)).
Proof.
  intros (Hid & Hname & [c Hc] & [x Hx] & [r Hr] & [cur Hcur] & [l Hl])
         (_ & Hcat & Ham & Hrr) (Haid & _).
  destruct Hname as (n & Hn & Hne).
  unfold complete, sanitized, nonempty_name. simpl.
  rewrite Hid, Hn, Hc, Hx, Hr, Hcur. simpl.
  rewrite Hc in Hcat. rewrite Hx in Ham. rewrite Hr in Hrr.
  split_and!; try done; try (by eexists); by exists n.
Qed.

Lemma insert_client_record_well_formed (e : Asset) (u t : string) :
  client_record e → sanitized e →
  complete (spread e (identity_stamp u t)) ∧
  sanitized (spread e (identity_stamp u t)).
Proof.
  intros (Hid & Hname & [c Hc] & [x Hx] & [r Hr] & [cur Hcur] & [l Hl])
         (_ & Hcat & Ham & Hrr).
  destruct Hname as (n & Hn & Hne).
  unfold complete, sanitized, nonempty_name. simpl.
  rewrite Hn, Hc, Hx, Hr, Hcur. simpl.
  rewrite Hc in Hcat. rewrite Hx in Ham. rewrite Hr in Hrr.
  split_and!; try done; try (by eexists); by exists n.
Qed.

Lemma merge_one_well_formed (pf : Platform) (l : list Asset) (w : World)
  (e : Asset) :
  client_record e → sanitized e →
  Forall (λ a, complete a ∧ sanitized a) l →
  Forall (λ a, complete a ∧ sanitized a) (merge_one pf (l, w) e).1.
Proof.
  intros Hc Hs Hall.
  destruct (truthy_string (a_name e)) eqn:Ht.
  - destruct (findIndex (same_name e) l) as [i|] eqn:Hf.
    + pose proof Hf as (a & Ha & _)%findIndex_Some.
      rewrite (merge_one_update pf l w e a i Ht Hf Ha). simpl.
      apply Forall_insert; [done|].
      apply spread_client_record_well_formed; [done..|].
      rewrite Forall_lookup in Hall. by destruct (Hall i a Ha).
    + rewrite (merge_one_insert pf l w e Ht Hf). simpl.
      apply Forall_app. split; [done|]. apply Forall_singleton.
      by apply insert_client_record_well_formed.
  - by rewrite (merge_one_skip pf l w e Ht).
Qed.

Lemma merge_assets_well_formed (pf : Platform) (ext prev : list Asset)
  (w : World) :
  Forall (λ e, client_record e ∧ sanitized e) ext →
  Forall (λ a, complete a ∧ sanitized a) prev →
  Forall (λ a, complete a ∧ sanitized a) (merge_assets pf prev ext w).1.
Proof.
  unfold merge_assets. revert prev w.
  induction ext as [|e ext IH]; intros prev w Hext Hall; [done|].
  apply Forall_cons in Hext as [[Hc Hs] Hext]. cbn [fold_left].
  pose proof (merge_one_well_formed pf prev w e Hc Hs Hall) as H1.
  destruct (merge_one pf (prev, w) e) as [l w1]. by apply IH.
Qed.

(** X7. The upload handler keeps the holdings well formed.  When every asset
    of the state is a complete [Asset] with a non-empty name, a category of
    the enumeration and an amount and a return rate other than NaN, so is
    every asset of the state after [handleFileUpload], whatever the file,
    the service and the parser answer.  The empty holdings are well formed,
    so the unchecked [as Asset] casts never let a partial object in. *)
Theorem upload_keeps_holdings_well_formed (pf : Platform) (file : option File)
  (s : AppState) (w : World) :
  Forall (λ a, complete a ∧ sanitized a) (assets s) →
  Forall (λ a, complete a ∧ sanitized a) (assets (handleFileUpload pf file s w).1).
Proof.
  intros Hall. unfold handleFileUpload.
  destruct file as [f|]; [|done].
  destruct (fileToGenerativePart f) as [base64|]; [|done].
  unfold parseHoldingsScreenshot, generateContent.
  destruct (ai_generateContent pf (requests w)) as [text|]; [|done].
  set (w0 := mkWorld (clockReads w) (uuidDraws w) (S (requests w)) (alerts w)).
  pose proof (parse_response_text_Forall
                (λ e, client_record e ∧ sanitized e) pf text w0) as Hext.
  destruct (parse_response_text pf text w0) as [ext w1]. simpl in Hext.
  pose proof (merge_assets_well_formed pf ext (assets s) w1) as Hm.
  destruct (merge_assets pf (assets s) ext w1) as [newAssets w2].
  destruct (update_history pf _ _ ext (history s) w2) as [newHistory w3].
  simpl. apply Hm; [|done]. apply Hext.
  intros t item. split; [apply sanitize_client_record|apply sanitize_sanitized].
Qed.

Lemma upload_keeps_holdings_well_formed_witness :
  let pf := scenario_platform [Some (raw_fund_A 150%float);
                               Some (mkRawItem None None None None None)] in
  Forall (λ a, complete a ∧ sanitized a)
    (assets (handleFileUpload pf (Some readable_file) (holding_fund_A 100%float)
               fresh_world).1).
Proof.
  intros pf.
  apply (upload_keeps_holdings_well_formed pf (Some readable_file)
           (holding_fund_A 100%float) fresh_world).
  apply Forall_singleton. split.
  - unfold complete. simpl. split_and!; by eexists.
  - unfold sanitized, nonempty_name. simpl. split_and!.
    + exists "Fund A". split; [reflexivity|discriminate].
    + exists "Fund". split; [reflexivity|].
      apply list_elem_of_further, list_elem_of_here.
    + by eexists.
    + by eexists.
Defined.

(** ** The merge over a batch: accounting, repetition, identifiers *)

Lemma merge_one_accounting (pf : Platform) (l : list Asset) (w : World)
  (e : Asset) :
  length (merge_one pf (l, w) e).1 + uuidDraws w =
    length l + uuidDraws (merge_one pf (l, w) e).2 ∧
  (length l ≤ length (merge_one pf (l, w) e).1)%nat ∧
  (length (merge_one pf (l, w) e).1 ≤ S (length l))%nat ∧
  clockReads (merge_one pf (l, w) e).2 =
    clockReads w + (if truthy_string (a_name e) then 1 else 0) ∧
  requests (merge_one pf (l, w) e).2 = requests w.
Proof.
  destruct (truthy_string (a_name e)) eqn:Ht.
  - destruct (findIndex (same_name e) l) as [i|] eqn:Hf.
    + pose proof Hf as (a & Ha & _)%findIndex_Some.
      rewrite (merge_one_update pf l w e a i Ht Hf Ha). simpl.
      rewrite length_insert. split_and!; lia.
    + rewrite (merge_one_insert pf l w e Ht Hf). simpl.
      rewrite length_app. simpl. split_and!; lia.
  - rewrite (merge_one_skip pf l w e Ht). simpl. split_and!; lia.
Qed.

Lemma merge_assets_accounting (pf : Platform) (ext prev : list Asset) (w : World) :
  (length prev ≤ length (merge_assets pf prev ext w).1)%nat ∧
  (length (merge_assets pf prev ext w).1 ≤ length prev + length ext)%nat ∧
  length (merge_assets pf prev ext w).1 + uuidDraws w =
    length prev + uuidDraws (merge_assets pf prev ext w).2 ∧
  clockReads (merge_assets pf prev ext w).2 =
    clockReads w +
    length (filter (λ e, truthy_string (a_name e) = true) ext) ∧
  requests (merge_assets pf prev ext w).2 = requests w.
Proof.
  unfold merge_assets. revert prev w.
  induction ext as [|e ext IH]; intros prev w.
  - simpl. split_and!; lia.
  - cbn [fold_left].
    pose proof (merge_one_accounting pf prev w e) as (H1 & H2 & H3 & H4 & H5).
    destruct (merge_one pf (prev, w) e) as [l w1]. simpl in *.
    destruct (IH l w1) as (I1 & I2 & I3 & I4 & I5).
    rewrite filter_cons.
    destruct (truthy_string (a_name e));
      [rewrite decide_True by done|rewrite decide_False by done];
      simpl; split_and!; lia.
Qed.

(** X8. The merge never removes an asset and adds at most one per record.
    It draws exactly one identifier per asset it adds, reads the clock once
    per record that has a non-empty name and never otherwise, and sends
    nothing to the service. *)
Theorem merge_accounting (pf : Platform) (ext prev : list Asset) (w : World) :
  (length prev ≤ length (merge_assets pf prev ext w).1)%nat ∧
  (length (merge_assets pf prev ext w).1 ≤ length prev + length ext)%nat ∧
  length (merge_assets pf prev ext w).1 + uuidDraws w =
    length prev + uuidDraws (merge_assets pf prev ext w).2 ∧
  clockReads (merge_assets pf prev ext w).2 =
    clockReads w +
    length (filter (λ e, truthy_string (a_name e) = true) ext) ∧
  requests (merge_assets pf prev ext w).2 = requests w.
Proof. apply merge_assets_accounting. Qed.

Lemma merge_one_names (pf : Platform) (l : list Asset) (w : World) (e : Asset) :
  (truthy_string (a_name e) = true →
   a_name e ∈ a_name <$> (merge_one pf (l, w) e).1) ∧
  (∀ n, n ∈ a_name <$> l → n ∈ a_name <$> (merge_one pf (l, w) e).1) ∧
  ((truthy_string (a_name e) = true → a_name e ∈ a_name <$> l) →
   a_name <$> (merge_one pf (l, w) e).1 = a_name <$> l).
Proof.
  destruct (truthy_string (a_name e)) eqn:Ht.
  - destruct (findIndex (same_name e) l) as [i|] eqn:Hf.
    + pose proof Hf as (a & Ha & Hp%same_name_true & _)%findIndex_Some.
      rewrite (merge_one_update pf l w e a i Ht Hf Ha). simpl.
      assert (Hsame : a_name <$> <[i := spread (spread a e)
                        (stamp (Date_toISOString pf (clockReads w)))]> l
                      = a_name <$> l).
      { rewrite list_fmap_insert. apply list_insert_id.
        rewrite list_lookup_fmap, Ha. simpl. unfold override.
        rewrite Hp. by destruct (a_name e). }
      rewrite Hsame. split_and!; [|done|done].
      intros _. rewrite <- Hp. apply list_elem_of_fmap_2.
      by apply list_elem_of_lookup_2 in Ha.
    + rewrite (merge_one_insert pf l w e Ht Hf). simpl.
      rewrite fmap_app. simpl. split_and!.
      * intros _. apply elem_of_app. right. apply list_elem_of_here.
      * intros n Hn. apply elem_of_app. by left.
      * intros Hin. specialize (Hin eq_refl).
        apply findIndex_None in Hf. rewrite Forall_forall in Hf.
        apply list_elem_of_fmap in Hin as (a & Hna & Ha).
        destruct (Hf a Ha). by apply same_name_true.
  - rewrite (merge_one_skip pf l w e Ht). simpl. by split_and!.
Qed.

Lemma merge_assets_names_present (pf : Platform) (ext prev : list Asset)
  (w : World) :
  (∀ e, e ∈ ext → truthy_string (a_name e) = true →
        a_name e ∈ a_name <$> (merge_assets pf prev ext w).1) ∧
  (∀ n, n ∈ a_name <$> prev → n ∈ a_name <$> (merge_assets pf prev ext w).1).
Proof.
  unfold merge_assets. revert prev w.
  induction ext as [|e ext IH]; intros prev w.
  - split; [|done]. intros e He. by apply not_elem_of_nil in He.
  - cbn [fold_left].
    pose proof (merge_one_names pf prev w e) as (H1 & H2 & _).
    destruct (merge_one pf (prev, w) e) as [l w1]. simpl in *.
    destruct (IH l w1) as [I1 I2]. split.
    + intros e' [->|He']%elem_of_cons Ht; [|by apply I1].
      apply I2. by apply H1.
    + intros n Hn. by apply I2, H2.
Qed.

Lemma merge_assets_names_fixed (pf : Platform) (ext l : list Asset) (w : World) :
  (∀ e, e ∈ ext → truthy_string (a_name e) = true → a_name e ∈ a_name <$> l) →
  a_name <$> (merge_assets pf l ext w).1 = a_name <$> l.
Proof.
  unfold merge_assets. revert l w.
  induction ext as [|e ext IH]; intros l w Hin; [done|].
  cbn [fold_left].
  pose proof (merge_one_names pf l w e) as (_ & _ & H3).
  destruct (merge_one pf (l, w) e) as [l' w1]. simpl in *.
  assert (Hl : a_name <$> l' = a_name <$> l).
  { apply H3. intros Ht. apply Hin; [apply list_elem_of_here|done]. }
  rewrite IH; [done|]. intros e' He' Ht. rewrite Hl.
  apply Hin; [by apply list_elem_of_further|done].
Qed.

(** X9. Merging a batch a second time adds nothing: after the first merge
    every record of the batch finds its asset, so the second merge only
    updates.  The names of the holdings, their order and their number are
    those after the first merge. *)
Theorem merging_a_batch_again_adds_nothing (pf : Platform)
  (ext prev : list Asset) (w w' : World) :
  a_name <$> (merge_assets pf (merge_assets pf prev ext w).1 ext w').1
    = a_name <$> (merge_assets pf prev ext w).1 ∧
  length (merge_assets pf (merge_assets pf prev ext w).1 ext w').1
    = length (merge_assets pf prev ext w).1 ∧
  uuidDraws (merge_assets pf (merge_assets pf prev ext w).1 ext w').2
    = uuidDraws w'.
Proof.
  assert (Hn : a_name <$> (merge_assets pf (merge_assets pf prev ext w).1 ext w').1
               = a_name <$> (merge_assets pf prev ext w).1).
  { apply merge_assets_names_fixed. intros e He Ht.
    destruct (merge_assets_names_present pf ext prev w) as [Hp _].
    by apply Hp. }
  assert (Hl : length (merge_assets pf (merge_assets pf prev ext w).1 ext w').1
               = length (merge_assets pf prev ext w).1).
  { by rewrite <- (length_fmap a_name), Hn, length_fmap. }
  split_and!; [done..|].
  pose proof (merge_assets_accounting pf ext (merge_assets pf prev ext w).1 w')
    as (_ & _ & Hacc & _).
  lia.
Qed.

Lemma merge_one_ids (pf : Platform) (l : list Asset) (w : World) (e : Asset) :
  (∀ j k, crypto_randomUUID pf j = crypto_randomUUID pf k → j = k) →
  a_id e = None →
  NoDup (a_id <$> l) →
  (∀ k, (uuidDraws w ≤ k)%nat → Some (crypto_randomUUID pf k) ∉ a_id <$> l) →
  NoDup (a_id <$> (merge_one pf (l, w) e).1) ∧
  (∀ k, (uuidDraws (merge_one pf (l, w) e).2 ≤ k)%nat →
        Some (crypto_randomUUID pf k) ∉ a_id <$> (merge_one pf (l, w) e).1).
Proof.
  intros Hinj Hid Hnd Hfresh.
  destruct (truthy_string (a_name e)) eqn:Ht.
  - destruct (findIndex (same_name e) l) as [i|] eqn:Hf.
    + pose proof Hf as (a & Ha & _)%findIndex_Some.
      rewrite (merge_one_update pf l w e a i Ht Hf Ha). simpl.
      assert (Hsame : a_id <$> <[i := spread (spread a e)
                        (stamp (Date_toISOString pf (clockReads w)))]> l
                      = a_id <$> l).
      { rewrite list_fmap_insert. apply list_insert_id.
        rewrite list_lookup_fmap, Ha. simpl. unfold override. by rewrite Hid. }
      by rewrite Hsame.
    + rewrite (merge_one_insert pf l w e Ht Hf). simpl.
      rewrite fmap_app. simpl. split.
      * apply NoDup_app. split_and!; [done| |apply NoDup_singleton].
        intros x Hx ->%list_elem_of_singleton.
        by apply (Hfresh (uuidDraws w)).
      * intros k Hk [Hin|Hin%list_elem_of_singleton]%elem_of_app.
        -- apply (Hfresh k); [lia|done].
        -- injection Hin as Hin. apply Hinj in Hin. lia.
  - by rewrite (merge_one_skip pf l w e Ht).
Qed.

(** X10. Identifiers stay unique over a batch.  When the identifiers of the
    holdings are pairwise distinct, the generator never repeats a string
    and none of its coming strings is in use, and the records carry no
    [id], the identifiers after the merge are pairwise distinct: the rows
    of the table, keyed by [asset.id], have distinct keys. *)
Theorem identifiers_stay_unique (pf : Platform) (ext prev : list Asset)
  (w : World) :
  (∀ j k, crypto_randomUUID pf j = crypto_randomUUID pf k → j = k) →
  Forall (λ e, a_id e = None) ext →
  NoDup (a_id <$> prev) →
  (∀ k, (uuidDraws w ≤ k)%nat → Some (crypto_randomUUID pf k) ∉ a_id <$> prev) →
  NoDup (a_id <$> (merge_assets pf prev ext w).1).
Proof.
  intros Hinj. unfold merge_assets. revert prev w.
  induction ext as [|e ext IH]; intros prev w Hext Hnd Hfresh; [done|].
  apply Forall_cons in Hext as [Hid Hext]. cbn [fold_left].
  pose proof (merge_one_ids pf prev w e Hinj Hid Hnd Hfresh) as [H1 H2].
  destruct (merge_one pf (prev, w) e) as [l w1]. by apply IH.
Qed.

Lemma identifiers_stay_unique_witness :
  let pf := scenario_platform [] in
  let ext := [sanitize "t" (raw_fund_A 150%float);
              sanitize "t" (mkRawItem (Some "Stock X") None None None None);
              sanitize "t" (mkRawItem (Some "Bond Y") None None None None)] in
  NoDup (a_id <$> (merge_assets pf [fund_A 100%float] ext fresh_world).1).
Proof.
  intros pf ext.
  apply (identifiers_stay_unique pf ext [fund_A 100%float] fresh_world).
  - intros j k Hjk. unfold pf, scenario_platform in Hjk.
    cbn [crypto_randomUUID String.app String.append] in Hjk.
    injection Hjk as Hjk. change (pretty j = pretty k) in Hjk.
    by apply (inj pretty) in Hjk.
  - repeat apply Forall_cons_2; [reflexivity..|apply Forall_nil_2].
  - apply NoDup_singleton.
  - intros k _ Hin. simpl in Hin. apply list_elem_of_singleton in Hin.
    discriminate.
Defined.

(** X11. The merge never makes an asset without a name: when every asset of
    the holdings has a non-empty name, so has every asset after the merge
    of any batch, records with a missing or empty name included. *)
Theorem merge_never_makes_an_empty_name (pf : Platform)
  (ext prev : list Asset) (w : World) :
  Forall nonempty_name prev →
  Forall nonempty_name (merge_assets pf prev ext w).1.
Proof. apply merge_assets_names_nonempty. Qed.

Lemma merge_never_makes_an_empty_name_witness :
  let pf := scenario_platform [] in
  let ext := [mkAsset None (Some "") None None None None None;
              mkAsset None None None (Some 5%float) None None None;
              mkAsset None (Some "Gold") None None None None None] in
  Forall nonempty_name (merge_assets pf [fund_A 100%float] ext fresh_world).1.
Proof.
  intros pf ext.
  apply (merge_never_makes_an_empty_name pf ext [fund_A 100%float] fresh_world).
  apply Forall_singleton. exists "Fund A". split; [reflexivity|discriminate].
Defined.

(** ** The handlers, whatever the platform answers *)

Lemma map_sanitize_requests (pf : Platform) (rawData : list (option RawItem))
  (w : World) :
  requests (map_sanitize pf w rawData).2 = requests w.
Proof.
  revert w. induction rawData as [|[item|] rest IH]; intros w; try done.
  rewrite map_sanitize_cons. simpl. by rewrite IH.
Qed.

Lemma parse_response_text_requests (pf : Platform) (text : option string)
  (w : World) :
  requests (parse_response_text pf text w).2 = requests w.
Proof.
  unfold parse_response_text. destruct text as [s|]; [|done].
  destruct (negb (truthy_string (Some s))); [done|].
  destruct (JSON_parse pf s) as [[rawData|r| |]|]; try done.
  pose proof (map_sanitize_requests pf rawData w) as Hm.
  by destruct (map_sanitize pf w rawData).
Qed.

Lemma update_history_requests (pf : Platform) (nw rr : float) (ext : list Asset)
  (H : list HistoryPoint) (w : World) :
  requests (update_history pf nw rr ext H w).2 = requests w.
Proof.
  unfold update_history. simpl. by destruct (findIndex _ H).
Qed.

Lemma handleFileUpload_requests (pf : Platform) (f : File) (s : AppState)
  (w : World) :
  requests (handleFileUpload pf (Some f) s w).2 =
    match fileToGenerativePart f with
    | Rejected => requests w
    | Resolved _ => S (requests w)
    end.
Proof.
  unfold handleFileUpload.
  destruct (fileToGenerativePart f) as [base64|]; [|done].
  unfold parseHoldingsScreenshot, generateContent.
  destruct (ai_generateContent pf (requests w)) as [text|]; [|done].
  destruct (parse_response_text pf text _) as [ext w1] eqn:Hp.
  destruct (merge_assets pf (assets s) ext w1) as [newAssets w2] eqn:Hm.
  destruct (update_history pf _ _ ext (history s) w2) as [newHistory w3] eqn:Hh.
  simpl.
  pose proof (update_history_requests pf (totalNetWorth (assets s))
                (totalReturnRate (assets s)) ext (history s) w2) as H3.
  pose proof (merge_assets_accounting pf ext (assets s) w1) as (_ & _ & _ & _ & H2).
  pose proof (parse_response_text_requests pf text
                (mkWorld (clockReads w) (uuidDraws w) (S (requests w)) (alerts w)))
    as H1.
  rewrite Hh in H3. rewrite Hm in H2. rewrite Hp in H1. simpl in *. congruence.
Qed.

(** X12. What an upload leaves alone.  Without a file [handleFileUpload] does
    nothing at all.  With a file it never touches the stored analysis,
    leaves [isUploading] false, shows exactly one notice, and sends one
    request to the service, or none when the file cannot be read.  When the
    file cannot be read or the request rejects, the holdings and the
    history are those of before. *)
Theorem upload_frame (pf : Platform) (f : File) (s : AppState) (w : World) :
  handleFileUpload pf None s w = (s, w) ∧
  analysis (handleFileUpload pf (Some f) s w).1 = analysis s ∧
  isAnalyzing (handleFileUpload pf (Some f) s w).1 = isAnalyzing s ∧
  isUploading (handleFileUpload pf (Some f) s w).1 = false ∧
  length (alerts (handleFileUpload pf (Some f) s w).2) = S (length (alerts w)) ∧
  (fileToGenerativePart f = Rejected →
   requests (handleFileUpload pf (Some f) s w).2 = requests w) ∧
  (∀ base64, fileToGenerativePart f = Resolved base64 →
   requests (handleFileUpload pf (Some f) s w).2 = S (requests w)) ∧
  (fileToGenerativePart f = Rejected ∨
   ai_generateContent pf (requests w) = Rejected →
   assets (handleFileUpload pf (Some f) s w).1 = assets s ∧
   history (handleFileUpload pf (Some f) s w).1 = history s).
Proof.
  split_and!.
  - reflexivity.
  - unfold handleFileUpload.
    destruct (fileToGenerativePart f) as [base64|]; [|done].
    destruct (parseHoldingsScreenshot pf base64 w) as [[ext|] w1]; [|done].
    destruct (merge_assets pf (assets s) ext w1) as [newAssets w2].
    by destruct (update_history pf _ _ ext (history s) w2).
  - unfold handleFileUpload.
    destruct (fileToGenerativePart f) as [base64|]; [|done].
    destruct (parseHoldingsScreenshot pf base64 w) as [[ext|] w1]; [|done].
    destruct (merge_assets pf (assets s) ext w1) as [newAssets w2].
    by destruct (update_history pf _ _ ext (history s) w2).
  - unfold handleFileUpload.
    destruct (fileToGenerativePart f) as [base64|]; [|done].
    destruct (parseHoldingsScreenshot pf base64 w) as [[ext|] w1]; [|done].
    destruct (merge_assets pf (assets s) ext w1) as [newAssets w2].
    by destruct (update_history pf _ _ ext (history s) w2).
  - rewrite handleFileUpload_alerts, length_app. simpl. lia.
  - intros Hf. by rewrite handleFileUpload_requests, Hf.
  - intros base64 Hf. by rewrite handleFileUpload_requests, Hf.
  - unfold handleFileUpload. intros [Hf|Hr].
    + by rewrite Hf.
    + destruct (fileToGenerativePart f) as [base64|]; [|done].
      unfold parseHoldingsScreenshot, generateContent. by rewrite Hr.
Qed.

(** X13. The analysis with assets in the state.  One request goes to the
    service and [isAnalyzing] ends false; the holdings and the history are
    never touched.  When the answer has a non-empty text that parses, no
    notice is shown and the parsed value is handed to [setAnalysis]: a value
    other than [null] replaces the stored analysis, and [null] clears it.
    When the request rejects, or the text is missing, empty or does not
    parse, the stored analysis stays and the notice of failure is shown. *)
Theorem analysis_outcomes (pf : Platform) (s : AppState) (w : World) :
  assets s ≠ [] →
  assets (handleRunAnalysis pf s w).1 = assets s ∧
  history (handleRunAnalysis pf s w).1 = history s ∧
  isUploading (handleRunAnalysis pf s w).1 = isUploading s ∧
  isAnalyzing (handleRunAnalysis pf s w).1 = false ∧
  requests (handleRunAnalysis pf s w).2 = S (requests w) ∧
  (∀ t j, ai_generateContent pf (requests w) = Resolved (Some t) → t ≠ "" →
          JSON_parse pf t = Some j →
          (j ≠ JNull → analysis (handleRunAnalysis pf s w).1 = Some j) ∧
          (j = JNull → analysis (handleRunAnalysis pf s w).1 = None) ∧
          alerts (handleRunAnalysis pf s w).2 = alerts w) ∧
  (ai_generateContent pf (requests w) = Rejected ∨
   ai_generateContent pf (requests w) = Resolved None ∨
   ai_generateContent pf (requests w) = Resolved (Some "") ∨
   (∃ t, ai_generateContent pf (requests w) = Resolved (Some t) ∧
         JSON_parse pf t = None) →
   analysis (handleRunAnalysis pf s w).1 = analysis s ∧
   alerts (handleRunAnalysis pf s w).2 = alerts w ++ [analysis_failed_notice]).
Proof.
  intros Hne. unfold handleRunAnalysis.
  destruct (assets s) as [|a l] eqn:Ha; [done|].
  unfold generateWealthAnalysis, generateContent.
  destruct (ai_generateContent pf (requests w)) as [[t|]|] eqn:Hr.
  - destruct (truthy_string (Some t)) eqn:Ht; simpl.
    + destruct (JSON_parse pf t) as [j|] eqn:Hp; simpl.
      * split_and!; try done.
        -- intros t' j' [= <-] _ Hp'. rewrite Hp in Hp'. injection Hp' as ->.
           split_and!; [|by intros ->|done].
           intros Hj. by destruct j'.
        -- intros [?|[?|[[= ->]|(t' & [= <-] & Hp')]]]; try done.
           by rewrite Hp in Hp'.
      * split_and!; try done.
        intros t' j' [= <-] _ Hp'. by rewrite Hp in Hp'.
    + apply truthy_string_false in Ht as [?|[= ->]]; [done|].
      split_and!; try done.
      intros t' j' [= <-] Hne'. by destruct Hne'.
  - simpl. split_and!; try done.
  - simpl. split_and!; try done.
Qed.

Lemma analysis_outcomes_witness :
  let pf := mkPlatform (λ t, if String.eqb t "null" then Some JNull else None)
              (λ _, "2024-05-01T10:00:00.000Z")
              (λ k, "uuid-" +:+ pretty k) (λ _, Resolved (Some "null")) in
  let s := mkAppState [fund_A 100%float] []
             (Some (JAnalysis (mkAnalysisResponse "a" "b" "c"))) false true in
  assets (handleRunAnalysis pf s fresh_world).1 = assets s ∧
  history (handleRunAnalysis pf s fresh_world).1 = history s ∧
  isUploading (handleRunAnalysis pf s fresh_world).1 = isUploading s ∧
  isAnalyzing (handleRunAnalysis pf s fresh_world).1 = false ∧
  requests (handleRunAnalysis pf s fresh_world).2 = 1 ∧
  (∀ t j, ai_generateContent pf 0 = Resolved (Some t) → t ≠ "" →
          JSON_parse pf t = Some j →
          (j ≠ JNull → analysis (handleRunAnalysis pf s fresh_world).1 = Some j) ∧
          (j = JNull → analysis (handleRunAnalysis pf s fresh_world).1 = None) ∧
          alerts (handleRunAnalysis pf s fresh_world).2 = alerts fresh_world) ∧
  (ai_generateContent pf 0 = Rejected ∨
   ai_generateContent pf 0 = Resolved None ∨
   ai_generateContent pf 0 = Resolved (Some "") ∨
   (∃ t, ai_generateContent pf 0 = Resolved (Some t) ∧ JSON_parse pf t = None) →
   analysis (handleRunAnalysis pf s fresh_world).1 = analysis s ∧
   alerts (handleRunAnalysis pf s fresh_world).2 =
     alerts fresh_world ++ [analysis_failed_notice]).
Proof.
  intros pf s.
  apply (analysis_outcomes pf s fresh_world). discriminate.
Defined.

(** The text [null] parses: the analysis stored before is cleared, and no
    notice tells the user. *)
Example null_answer_clears_the_analysis :
  let pf := mkPlatform (λ t, if String.eqb t "null" then Some JNull else None)
              (λ _, "2024-05-01T10:00:00.000Z")
              (λ k, "uuid-" +:+ pretty k) (λ _, Resolved (Some "null")) in
  let s := mkAppState [fund_A 100%float] []
             (Some (JAnalysis (mkAnalysisResponse "a" "b" "c"))) false true in
  handleRunAnalysis pf s fresh_world =
    (mkAppState [fund_A 100%float] [] None false false, mkWorld 0 0 1 []).
Proof. reflexivity. Qed.

(** The same unparsable text ends an upload with the notice of success and
    an analysis with the notice of failure. *)
Example unparsable_text_in_both_handlers :
  let pf := mkPlatform (λ _, None) (λ _, "2024-05-01T10:00:00.000Z")
              (λ k, "uuid-" +:+ pretty k) (λ _, Resolved (Some "not json")) in
  alerts (handleFileUpload pf (Some readable_file) (holding_fund_A 100%float)
            fresh_world).2 = [upload_ok_notice] ∧
  alerts (handleRunAnalysis pf (holding_fund_A 100%float) fresh_world).2
    = [analysis_failed_notice].
Proof. split; reflexivity. Qed.

(** ** Numbers that are not numbers *)

Lemma isNaN_Prim2SF (x : float) : isNaN x = true ↔ Prim2SF x = S754_nan.
Proof.
  unfold isNaN. rewrite FloatAxioms.eqb_spec, negb_true_iff.
  destruct (Prim2SF x) as [s|s| |s m e]; unfold SFeqb, SFcompare.
  - split; discriminate.
  - destruct s; split; discriminate.
  - split; reflexivity.
  - destruct s; rewrite Z.compare_refl, Pos.compare_cont_refl; split; discriminate.
Qed.

Lemma isNaN_add (x y : float) :
  isNaN x = true ∨ isNaN y = true → isNaN (PrimFloat.add x y) = true.
Proof.
  rewrite !isNaN_Prim2SF, FloatAxioms.add_spec. unfold SF64add, SFadd.
  intros [-> | ->]; [reflexivity|]. by destruct (Prim2SF x).
Qed.

Lemma isNaN_not_positive (x : float) :
  isNaN x = true → PrimFloat.ltb 0%float x = false.
Proof.
  rewrite isNaN_Prim2SF, FloatAxioms.ltb_spec. by intros ->.
Qed.

Lemma totalNetWorth_from (acc : float) (l : list Asset) :
  isNaN acc = true ∨ (∃ a, a ∈ l ∧ isNaN (Number (a_amount a)) = true) →
  isNaN (fold_left (λ sum a, add_undef sum (a_amount a)) l acc) = true.
Proof.
  revert acc. induction l as [|b l IH]; intros acc Hc; simpl.
  - destruct Hc as [Hacc|(a & Ha & _)]; [done|]. by apply not_elem_of_nil in Ha.
  - apply IH. destruct Hc as [Hacc|(a & [->|Ha]%elem_of_cons & Hn)].
    + left. apply isNaN_add. by left.
    + left. apply isNaN_add. by right.
    + right. by exists a.
Qed.

(** X14. One asset without an amount, or with the amount NaN, spoils the
    totals: the total net worth is NaN, whatever the other assets hold, and
    the weighted return rate is then 0, since NaN is not greater than 0. *)
Theorem missing_amount_spoils_totals (assets : list Asset) (a : Asset) :
  a ∈ assets → isNaN (Number (a_amount a)) = true →
  isNaN (totalNetWorth assets) = true ∧ totalReturnRate assets = 0%float.
Proof.
  intros Ha Hn.
  assert (Ht : isNaN (totalNetWorth assets) = true).
  { apply totalNetWorth_from. right. by exists a. }
  split; [exact Ht|]. unfold totalReturnRate.
  by rewrite (isNaN_not_positive _ Ht).
Qed.

Lemma missing_amount_spoils_totals_witness :
  let a := mkAsset (Some "a2") (Some "Gold") None None None None None in
  isNaN (totalNetWorth [fund_A 100%float; a; fund_A 5%float]) = true ∧
  totalReturnRate [fund_A 100%float; a; fund_A 5%float] = 0%float.
Proof.
  intros a.
  apply (missing_amount_spoils_totals [fund_A 100%float; a; fund_A 5%float] a).
  - apply list_elem_of_further, list_elem_of_here.
  - reflexivity.
Defined.

Lemma positive_is_not_below_zero (x : float) :
  PrimFloat.ltb 0%float x = true → PrimFloat.leb 0%float x = true.
Proof.
  rewrite FloatAxioms.ltb_spec, FloatAxioms.leb_spec. unfold SFltb, SFleb.
  by destruct (SFcompare (Prim2SF 0%float) (Prim2SF x)) as [[]|].
Qed.

(** X15. The sign and the colour of a rate in the table agree: a rate shown
    with "+" is green, a red rate has no "+", a rate of zero is green
    without sign, and a missing rate is red without sign. *)
Theorem rate_sign_agrees_with_colour (asset : Asset) :
  (rate_sign asset = "+" → rate_class asset = "text-green-400") ∧
  (rate_class asset = "text-red-400" → rate_sign asset = "") ∧
  (PrimFloat.eqb (Number (a_returnRate asset)) 0%float = true →
   rate_class asset = "text-green-400" ∧ rate_sign asset = "") ∧
  (a_returnRate asset = None →
   rate_class asset = "text-red-400" ∧ rate_sign asset = "").
Proof.
  unfold rate_sign, rate_class. split_and!.
  - destruct (PrimFloat.ltb 0 (Number (a_returnRate asset))) eqn:Hlt; [|done].
    by rewrite (positive_is_not_below_zero _ Hlt).
  - destruct (PrimFloat.ltb 0 (Number (a_returnRate asset))) eqn:Hlt; [|done].
    by rewrite (positive_is_not_below_zero _ Hlt).
  - intros Hz. rewrite (zero_not_below_zero _ Hz). split; [|done].
    revert Hz. rewrite FloatAxioms.eqb_spec, FloatAxioms.leb_spec.
    change (Prim2SF 0%float) with (S754_zero false).
    destruct (Prim2SF (Number (a_returnRate asset))) as [s|s| |s m e];
      unfold SFeqb, SFleb; simpl; try done.
    all: by destruct s.
  - by intros ->.
Qed.

(** ** The data of the allocation chart *)

Lemma allocation_data_snoc (l : list Asset) (a : Asset) :
  allocation_data (l ++ [a]) = allocation_step (allocation_data l) a.
Proof. unfold allocation_data. by rewrite fold_left_app. Qed.

Lemma allocation_step_found (acc : list Slice) (a : Asset) (k : nat)
  (existing : Slice) :
  list_find (λ i, s_name i = display_name CategoryMap (a_category a)) acc
    = Some (k, existing) →
  allocation_step acc a =
    <[k := mkSlice (s_name existing)
             (Some (PrimFloat.add (Number (s_value existing))
                      (Number (a_amount a))))]> acc.
Proof. intros Hf. unfold allocation_step. by rewrite Hf. Qed.

Lemma allocation_step_new (acc : list Slice) (a : Asset) :
  list_find (λ i, s_name i = display_name CategoryMap (a_category a)) acc = None →
  allocation_step acc a =
    acc ++ [mkSlice (display_name CategoryMap (a_category a)) (a_amount a)].
Proof. intros Hf. unfold allocation_step. by rewrite Hf. Qed.

Lemma allocation_step_names (acc : list Slice) (a : Asset) :
  NoDup (s_name <$> acc) →
  NoDup (s_name <$> allocation_step acc a) ∧
  (∀ n, n ∈ s_name <$> allocation_step acc a ↔
        n ∈ s_name <$> acc ∨ n = display_name CategoryMap (a_category a)) ∧
  (length acc ≤ length (allocation_step acc a))%nat ∧
  (length (allocation_step acc a) ≤ S (length acc))%nat.
Proof.
  intros Hnd.
  destruct (list_find (λ i, s_name i = display_name CategoryMap (a_category a)) acc)
    as [[k existing]|] eqn:Hf.
  - rewrite (allocation_step_found acc a k existing Hf).
    apply list_find_Some in Hf as (Hk & Hname & _).
    assert (Hsame : s_name <$> <[k := mkSlice (s_name existing)
                      (Some (PrimFloat.add (Number (s_value existing))
                               (Number (a_amount a))))]> acc = s_name <$> acc).
    { rewrite list_fmap_insert. apply list_insert_id.
      by rewrite list_lookup_fmap, Hk. }
    rewrite Hsame, length_insert. split_and!; [done| |lia|lia].
    intros n. split; [by left|]. intros [Hn| ->]; [done|].
    rewrite <- Hname. apply list_elem_of_fmap_2.
    by apply list_elem_of_lookup_2 in Hk.
  - rewrite (allocation_step_new acc a Hf).
    apply list_find_None in Hf. rewrite Forall_forall in Hf.
    rewrite fmap_app, length_app. simpl. split_and!; [| |lia|lia].
    + apply NoDup_app. split_and!; [done| |apply NoDup_singleton].
      intros n (sl & -> & Hsl)%list_elem_of_fmap Hn%list_elem_of_singleton.
      by apply (Hf sl Hsl).
    + intros n. rewrite elem_of_app, list_elem_of_singleton. done.
Qed.

Lemma allocation_data_names (assets : list Asset) :
  NoDup (s_name <$> allocation_data assets) ∧
  (∀ n, n ∈ s_name <$> allocation_data assets ↔
        n ∈ (λ a, display_name CategoryMap (a_category a)) <$> assets) ∧
  (length (allocation_data assets) ≤ length assets)%nat.
Proof.
  induction assets as [|a l (Hnd & Hn & Hl)] using rev_ind.
  - split_and!; [apply NoDup_nil_2|done|done].
  - rewrite allocation_data_snoc.
    destruct (allocation_step_names (allocation_data l) a Hnd)
      as (Hnd' & Hn' & _ & Hl').
    split_and!; [done| |rewrite length_app; simpl; lia].
    intros n. rewrite Hn', Hn, fmap_app, elem_of_app. simpl.
    by rewrite list_elem_of_singleton.
Qed.

Lemma display_name_enumerated (a : Asset) :
  enumerated_category a →
  display_name CategoryMap (a_category a) ∈ (Some ∘ snd) <$> CategoryMap.
Proof.
  intros (c & -> & Hc). unfold AssetCategory_values in Hc. simpl in Hc.
  repeat (apply elem_of_cons in Hc as [->|Hc];
          [vm_compute; repeat first [apply list_elem_of_here
                                    |apply list_elem_of_further]|]).
  by apply not_elem_of_nil in Hc.
Qed.

(** X16. The pie chart has one slice per display name.  For assets whose
    category belongs to the enumeration, the names of the slices are
    pairwise distinct and are exactly the labels of the categories that
    occur; there are at most as many slices as assets and at most six; and
    every slice has a colour of the palette, no two slices the same. *)
Theorem allocation_slices (assets : list Asset) :
  Forall enumerated_category assets →
  NoDup (s_name <$> allocation_data assets) ∧
  (∀ n, n ∈ s_name <$> allocation_data assets ↔
        ∃ a, a ∈ assets ∧ display_name CategoryMap (a_category a) = n) ∧
  (length (allocation_data assets) ≤ length assets)%nat ∧
  (length (allocation_data assets) ≤ 6)%nat ∧
  Forall is_Some (cell_fills (allocation_data assets)) ∧
  NoDup (cell_fills (allocation_data assets)).
Proof.
  intros Henum.
  destruct (allocation_data_names assets) as (Hnd & Hn & Hl).
  assert (H6 : (length (allocation_data assets) ≤ 6)%nat).
  { rewrite <- (length_fmap s_name).
    change 6 with (length ((Some ∘ snd) <$> CategoryMap)).
    apply submseteq_length, NoDup_submseteq; [done|].
    intros n (a & -> & Ha)%Hn%list_elem_of_fmap.
    apply display_name_enumerated. rewrite Forall_forall in Henum.
    by apply Henum. }
  split_and!; [done| |done|done| |].
  - intros n. rewrite Hn. rewrite list_elem_of_fmap. split.
    + intros (a & -> & Ha). by exists a.
    + intros (a & Ha & <-). by exists a.
  - apply Forall_forall. intros c (k & Hk)%list_elem_of_lookup_1.
    unfold cell_fills in Hk. rewrite list_lookup_imap in Hk.
    apply fmap_Some in Hk as (sl & _ & ->). apply lookup_lt_is_Some.
    apply Nat.mod_upper_bound. discriminate.
  - revert H6. generalize (allocation_data assets). intros data H6.
    do 7 (destruct data as [|? data];
          [vm_compute; by apply (bool_decide_unpack _)|]).
    simpl in H6. lia.
Qed.

Lemma allocation_slices_witness :
  let assets := [fund_A 100%float; fund_A 50%float;
                 mkAsset (Some "a3") (Some "Cash") (Some "Cash") (Some 7%float)
                   (Some 0%float) (Some "CNY") (Some "t0")] in
  NoDup (s_name <$> allocation_data assets) ∧
  (∀ n, n ∈ s_name <$> allocation_data assets ↔
        ∃ a, a ∈ assets ∧ display_name CategoryMap (a_category a) = n) ∧
  (length (allocation_data assets) ≤ length assets)%nat ∧
  (length (allocation_data assets) ≤ 6)%nat ∧
  Forall is_Some (cell_fills (allocation_data assets)) ∧
  NoDup (cell_fills (allocation_data assets)).
Proof.
  intros assets. apply (allocation_slices assets).
  repeat apply Forall_cons_2; try apply Forall_nil_2.
  - exists "Fund". split; [reflexivity|].
    apply list_elem_of_further, list_elem_of_here.
  - exists "Fund". split; [reflexivity|].
    apply list_elem_of_further, list_elem_of_here.
  - exists "Cash". split; [reflexivity|].
    do 4 apply list_elem_of_further. apply list_elem_of_here.
Defined.

(** Two funds and some cash: two slices, the funds added up. *)
Example two_funds_and_cash :
  allocation_data
    [fund_A 100%float; fund_A 50%float;
     mkAsset (Some "a3") (Some "Cash") (Some "Cash") (Some 7%float)
       (Some 0%float) (Some "CNY") (Some "t0")] =
  [mkSlice (Some "基金") (Some 150%float); mkSlice (Some "现金") (Some 7%float)].
Proof. vm_compute. done. Qed.

Lemma amounts_named_snoc (n : option string) (l : list Asset) (a : Asset) :
  amounts_named n (l ++ [a]) =
    amounts_named n l ++
    (if decide (display_name CategoryMap (a_category a) = n)
     then [a_amount a] else []).
Proof.
  unfold amounts_named. rewrite filter_app, fmap_app, filter_cons, filter_nil.
  by destruct (decide _).
Qed.

Lemma running_sum_snoc (v : option float) (rest : list (option float))
  (x : option float) :
  running_sum v (rest ++ [x]) =
    Some (PrimFloat.add (Number (running_sum v rest)) (Number x)).
Proof. unfold running_sum. by rewrite fold_left_app. Qed.

Lemma slices_with_one_name (data : list Slice) (i j : nat) (x y : Slice) :
  NoDup (s_name <$> data) → data !! i = Some x → data !! j = Some y →
  s_name x = s_name y → x = y.
Proof.
  intros Hnd Hx Hy Hn.
  assert (i = j) as ->; [|congruence].
  apply (NoDup_lookup (s_name <$> data) i j (s_name x)); [done|..].
  - by rewrite list_lookup_fmap, Hx.
  - by rewrite list_lookup_fmap, Hy, Hn.
Qed.

Lemma allocation_data_values (assets : list Asset) (n : option string) :
  match amounts_named n assets with
  | [] => n ∉ s_name <$> allocation_data assets
  | v :: rest => mkSlice n (running_sum v rest) ∈ allocation_data assets
  end.
Proof.
  revert n. induction assets as [|a l IH] using rev_ind; intros n.
  - apply not_elem_of_nil.
  - rewrite amounts_named_snoc, allocation_data_snoc.
    destruct (allocation_data_names l) as (Hnd & _ & _).
    set (cn := display_name CategoryMap (a_category a)).
    destruct (list_find (λ i, s_name i = cn) (allocation_data l))
      as [[k existing]|] eqn:Hf.
    + rewrite (allocation_step_found _ a k existing Hf).
      apply list_find_Some in Hf as (Hk & Hname & _).
      destruct (decide (cn = n)) as [<-|Hne].
      * specialize (IH cn).
        destruct (amounts_named cn l) as [|v rest] eqn:Hv.
        -- destruct IH. rewrite <- Hname. apply list_elem_of_fmap_2.
           by apply list_elem_of_lookup_2 in Hk.
        -- simpl. apply list_elem_of_lookup_1 in IH as (j & Hj).
           assert (He : existing = mkSlice cn (running_sum v rest)).
           { by apply (slices_with_one_name (allocation_data l) k j). }
           rewrite running_sum_snoc, He. simpl.
           apply list_elem_of_lookup_2 with k.
           apply list_lookup_insert_eq. by apply lookup_lt_Some in Hk.
      * rewrite app_nil_r. specialize (IH n).
        assert (Hsame : s_name <$> <[k := mkSlice (s_name existing)
                          (Some (PrimFloat.add (Number (s_value existing))
                                   (Number (a_amount a))))]> (allocation_data l)
                        = s_name <$> allocation_data l).
        { rewrite list_fmap_insert. apply list_insert_id.
          by rewrite list_lookup_fmap, Hk. }
        destruct (amounts_named n l) as [|v rest]; [by rewrite Hsame|].
        apply list_elem_of_lookup_1 in IH as (j & Hj).
        apply list_elem_of_lookup_2 with j.
        rewrite list_lookup_insert_ne; [done|].
        intros ->. rewrite Hk in Hj. injection Hj as ->.
        simpl in Hname. by destruct Hne.
    + rewrite (allocation_step_new _ a Hf).
      apply list_find_None in Hf. rewrite Forall_forall in Hf.
      destruct (decide (cn = n)) as [<-|Hne].
      * specialize (IH cn).
        destruct (amounts_named cn l) as [|v rest].
        -- simpl. apply elem_of_app. right. apply list_elem_of_here.
        -- by destruct (Hf _ IH).
      * rewrite app_nil_r. specialize (IH n).
        destruct (amounts_named n l) as [|v rest].
        -- rewrite fmap_app. simpl. intros [Hin|Hin%list_elem_of_singleton]%elem_of_app;
             [by destruct IH|by destruct Hne].
        -- apply elem_of_app. by left.
Qed.

(** X17. The value of a slice.  For assets whose category belongs to the
    enumeration and a display name [n]: when no asset has the name there is
    no slice of that name; otherwise the chart holds the slice named [n]
    whose value is the amount of the first such asset with the amounts of
    the following ones added in list order. *)
Theorem slice_value_is_running_sum (assets : list Asset) (n : option string) :
  Forall enumerated_category assets →
  match amounts_named n assets with
  | [] => n ∉ s_name <$> allocation_data assets
  | v :: rest => mkSlice n (running_sum v rest) ∈ allocation_data assets
  end.
Proof. intros _. apply allocation_data_values. Qed.

Lemma slice_value_is_running_sum_witness :
  mkSlice (Some "基金") (running_sum (Some 100%float) [Some 50%float]) ∈
    allocation_data
      [fund_A 100%float;
       mkAsset (Some "a3") (Some "Cash") (Some "Cash") (Some 7%float)
         (Some 0%float) (Some "CNY") (Some "t0");
       fund_A 50%float].
Proof.
  apply (slice_value_is_running_sum
           [fund_A 100%float;
            mkAsset (Some "a3") (Some "Cash") (Some "Cash") (Some 7%float)
              (Some 0%float) (Some "CNY") (Some "t0");
            fund_A 50%float] (Some "基金")).
  repeat apply Forall_cons_2; try apply Forall_nil_2.
  - exists "Fund". split; [reflexivity|].
    apply list_elem_of_further, list_elem_of_here.
  - exists "Cash". split; [reflexivity|].
    do 4 apply list_elem_of_further. apply list_elem_of_here.
  - exists "Fund". split; [reflexivity|].
    apply list_elem_of_further, list_elem_of_here.
Defined.

(** X18. The three tables of labels agree.  For every category of the
    enumeration the chart, the holdings table and the prompt of the analysis
    show the same label, which is a label of the table and not the category
    itself; two categories of the enumeration with the same label are the
    same, so assets of different categories never share a slice. *)
Theorem category_labels_agree (c c' : string) :
  c ∈ AssetCategory_values →
  display_name CategoryMap (Some c) = display_name CategoryDisplayMap (Some c) ∧
  display_name CategoryMap (Some c) = display_name categoryMap (Some c) ∧
  display_name CategoryMap (Some c) ≠ Some c ∧
  (c' ∈ AssetCategory_values →
   display_name CategoryMap (Some c) = display_name CategoryMap (Some c') →
   c = c').
Proof.
  intros Hc. unfold AssetCategory_values in Hc. simpl in Hc.
  repeat (apply elem_of_cons in Hc as [->|Hc]; [
    split_and!; [reflexivity|reflexivity|discriminate|];
    intros Hc'; unfold AssetCategory_values in Hc'; simpl in Hc';
    repeat (apply elem_of_cons in Hc' as [->|Hc'];
            [vm_compute; intros; first [reflexivity|discriminate]|]);
    by apply not_elem_of_nil in Hc' |]).
  by apply not_elem_of_nil in Hc.
Qed.

Lemma category_labels_agree_witness :
  display_name CategoryMap (Some "Crypto")
    = display_name CategoryDisplayMap (Some "Crypto") ∧
  display_name CategoryMap (Some "Crypto")
    = display_name categoryMap (Some "Crypto") ∧
  display_name CategoryMap (Some "Crypto") ≠ Some "Crypto" ∧
  ("Cash" ∈ AssetCategory_values →
   display_name CategoryMap (Some "Crypto") = display_name CategoryMap (Some "Cash") →
   "Crypto" = "Cash").
Proof.
  apply (category_labels_agree "Crypto" "Cash").
  do 3 apply list_elem_of_further. apply list_elem_of_here.
Defined.

(** X19. The return rate of today's point lags: after an upload whose
    extraction resolved, the point written for today carries the weighted
    return rate of the holdings before the merge, whatever the extracted
    records say, and so the rate 0 when the holdings were empty. *)
Theorem todays_return_rate_lags (pf : Platform) (f : File) (s : AppState)
  (w w1 : World) (base64 : option string) (ext : list Asset) :
  fileToGenerativePart f = Resolved base64 →
  parseHoldingsScreenshot pf base64 w = (Resolved ext, w1) →
  ∃ i P,
    history (handleFileUpload pf (Some f) s w).1 !! i = Some P ∧
    h_date P = today_of (Date_toISOString pf
                 (clockReads (merge_assets pf (assets s) ext w1).2)) ∧
    h_totalReturnRate P = totalReturnRate (assets s) ∧
    (assets s = [] → h_totalReturnRate P = 0%float).
Proof.
  intros Hf Hp.
  rewrite (handleFileUpload_success pf f s w w1 base64 ext Hf Hp). simpl.
  destruct (update_history_writes_today pf (totalNetWorth (assets s))
              (totalReturnRate (assets s)) ext (history s)
              (merge_assets pf (assets s) ext w1).2) as (i & Hi & _).
  eexists i, _. split_and!; [exact Hi|done|done|].
  intros He. simpl. by rewrite He.
Qed.

Lemma todays_return_rate_lags_witness :
  let pf := scenario_platform [Some (raw_fund_A 150%float)] in
  let s := mkAppState [] [] None false false in
  ∃ i P,
    history (handleFileUpload pf (Some readable_file) s fresh_world).1 !! i
      = Some P ∧
    h_date P = "2024-05-01" ∧
    h_totalReturnRate P = totalReturnRate (assets s) ∧
    (assets s = [] → h_totalReturnRate P = 0%float).
Proof.
  intros pf s.
  exact (todays_return_rate_lags pf readable_file s fresh_world (mkWorld 1 0 1 [])
           (Some "AAAA")
           [sanitize "2024-05-01T10:00:00.000Z" (raw_fund_A 150%float)]
           eq_refl eq_refl).
Defined.

(** X20. Nothing extracted is lost and nothing held is dropped: after an
    upload whose extraction resolved with the records [ext], every name of
    [ext] and every name held before is the name of an asset of the new
    state. *)
Theorem upload_holds_every_name (pf : Platform) (f : File) (s : AppState)
  (w w1 : World) (base64 : option string) (ext : list Asset) :
  fileToGenerativePart f = Resolved base64 →
  parseHoldingsScreenshot pf base64 w = (Resolved ext, w1) →
  (∀ e, e ∈ ext →
        a_name e ∈ a_name <$> assets (handleFileUpload pf (Some f) s w).1) ∧
  (∀ n, n ∈ a_name <$> assets s →
        n ∈ a_name <$> assets (handleFileUpload pf (Some f) s w).1).
Proof.
  intros Hf Hp.
  rewrite (handleFileUpload_success pf f s w w1 base64 ext Hf Hp). simpl.
  destruct (merge_assets_names_present pf ext (assets s) w1) as [H1 H2].
  split; [|exact H2].
  intros e He. apply H1; [done|].
  assert (Hall : Forall sanitized ext).
  { pose proof (parse_response_text_sanitized pf
                  match ai_generateContent pf (requests w) with
                  | Resolved text => text
                  | Rejected => None
                  end
                  (mkWorld (clockReads w) (uuidDraws w) (S (requests w))
                     (alerts w))) as Hs.
    unfold parseHoldingsScreenshot, generateContent in Hp.
    destruct (ai_generateContent pf (requests w)) as [text|]; [|done].
    destruct (parse_response_text pf text _) as [l w2].
    by injection Hp as -> ->. }
  rewrite Forall_forall in Hall. destruct (Hall e He) as [Hn _].
  by apply truthy_string_true.
Qed.

Lemma upload_holds_every_name_witness :
  let pf := scenario_platform [Some (raw_fund_A 150%float);
                               Some (mkRawItem (Some "Stock X") None None None None)] in
  let s := holding_fund_A 100%float in
  let ext := [sanitize "2024-05-01T10:00:00.000Z" (raw_fund_A 150%float);
              sanitize "2024-05-01T10:00:00.000Z"
                (mkRawItem (Some "Stock X") None None None None)] in
  (∀ e, e ∈ ext →
        a_name e ∈
          a_name <$> assets (handleFileUpload pf (Some readable_file) s
                               fresh_world).1) ∧
  (∀ n, n ∈ a_name <$> assets s →
        n ∈ a_name <$> assets (handleFileUpload pf (Some readable_file) s
                                 fresh_world).1).
Proof.
  intros pf s ext.
  exact (upload_holds_every_name pf readable_file s fresh_world (mkWorld 2 0 1 [])
           (Some "AAAA") ext eq_refl eq_refl).
Defined.
